(** * Repository test modules ([resources/repo_test.py])

    A shallow embedding of the test-module classes of the repository
    checker: the process runner [repo_test.execute_command] and the
    [perform_test] method of every concrete module, followed by the
    properties the design document states about them.

    Python text is a sequence of Unicode code points, instance attributes
    live in a dictionary, methods run in a state-and-exception monad over
    the instance and the outside world (file system, console, run-context
    log, child processes). *)

From Stdlib Require Import ZArith NArith List String Ascii Lia DecimalString.
From stdpp Require Import gmap strings list.

Local Open Scope Z_scope.

(** ** Python text *)

(** A [str] is a list of code points. *)
Definition pystr := list N.

(** Source literals. *)
Definition lit (s : string) : pystr :=
  List.map N_of_ascii (list_ascii_of_string s).

Arguments lit : simpl never.

(** [sep.join(parts)]. *)
Fixpoint join (sep : pystr) (parts : list pystr) : pystr :=
  match parts with
  | [] => []
  | [p] => p
  | p :: rest => p ++ sep ++ join sep rest
  end.

(** The line feed, and the text made of it. *)
Definition LF : N := 10.
Definition nl : pystr := [LF].

(** [str(n)] for an [int]. *)
Definition str_of_int (n : Z) : pystr :=
  lit (NilEmpty.string_of_int (Z.to_int n)).

(** The line boundaries of [str.splitlines]: LF, CR, VT, FF, FS, GS, RS,
    NEL, LINE SEPARATOR and PARAGRAPH SEPARATOR. *)
Definition is_linebreak (c : N) : bool :=
  existsb (N.eqb c) [10; 11; 12; 13; 28; 29; 30; 133; 8232; 8233]%N.

(** [s.splitlines()]: [cur] holds the current line, reversed.  A CR
    directly followed by LF is one boundary; a last line without a
    terminator is kept when it is not empty. *)
Fixpoint splitlines_from (cur : pystr) (s : pystr) : list pystr :=
  match s with
  | [] => match cur with [] => [] | _ => [rev cur] end
  | c :: rest =>
      if is_linebreak c then
        rev cur ::
          match rest with
          | d :: rest' =>
              if (N.eqb c 13 && N.eqb d 10)%bool
              then splitlines_from [] rest'
              else splitlines_from [] rest
          | [] => splitlines_from [] rest
          end
      else splitlines_from (c :: cur) rest
  end.

Definition splitlines (s : pystr) : list pystr := splitlines_from [] s.

(** [s.split(sep)] for a one-character separator: always at least one
    field, the empty string gives one empty field. *)
Fixpoint split_from (sep : N) (cur : pystr) (s : pystr) : list pystr :=
  match s with
  | [] => [rev cur]
  | c :: rest =>
      if N.eqb c sep then rev cur :: split_from sep [] rest
      else split_from sep (c :: cur) rest
  end.

Definition split (sep : N) (s : pystr) : list pystr := split_from sep [] s.

(** [str.isspace] on one character, as used by [str.strip()]. *)
Definition is_space (c : N) : bool :=
  ((9 <=? c) && (c <=? 13) || (28 <=? c) && (c <=? 32)
   || existsb (N.eqb c) [133; 160; 5760; 8232; 8233; 8239; 8287; 12288]
   || (8192 <=? c) && (c <=? 8202))%N%bool.

Fixpoint lstrip (s : pystr) : pystr :=
  match s with
  | c :: rest => if is_space c then lstrip rest else s
  | [] => []
  end.

(** [s.strip()]. *)
Definition strip (s : pystr) : pystr := rev (lstrip (rev (lstrip s))).

(** ** [pathlib] paths (POSIX flavour) *)

Module Path.

(** A pure path: its root (nothing, one slash or exactly two slashes)
    and its components. *)
Record t := mk { root : pystr; parts : list pystr }.

Definition slash : N := 47.

Fixpoint leading_slashes (s : pystr) : nat :=
  match s with
  | c :: rest => if N.eqb c slash then S (leading_slashes rest) else O
  | [] => O
  end.

Definition is_component (p : pystr) : bool :=
  match p with
  | [] => false
  | [46%N] => false
  | _ => true
  end.

(** [Path(s)]: empty components and single dots disappear. *)
Definition of_str (s : pystr) : t :=
  {| root := match leading_slashes s with
             | O => []
             | 2%nat => [slash; slash]
             | _ => [slash]
             end;
     parts := List.filter is_component (split slash s) |}.

(** [str(p)]. *)
Definition to_str (p : t) : pystr :=
  match root p, parts p with
  | [], [] => lit "."
  | r, ps => r ++ join [slash] ps
  end.

Definition is_absolute (p : t) : bool :=
  match root p with [] => false | _ => true end.

(** [p / s]: an absolute right operand replaces the left one. *)
Definition div (p : t) (s : pystr) : t :=
  let q := of_str s in
  if is_absolute q then q
  else {| root := root p; parts := parts p ++ parts q |}.

Fixpoint strip_prefix (pre l : list pystr) : option (list pystr) :=
  match pre, l with
  | [], _ => Some l
  | a :: pre', b :: l' =>
      if decide (a = b) then strip_prefix pre' l' else None
  | _ :: _, [] => None
  end.

(** [p.relative_to(other)]: [None] stands for the [ValueError]. *)
Definition relative_to (p other : t) : option t :=
  if decide (root p = root other) then
    match strip_prefix (parts other) (parts p) with
    | Some rest => Some {| root := []; parts := rest |}
    | None => None
    end
  else None.

End Path.

(** ** Values, exceptions, the monad *)

(** The values an instance attribute holds in this model: [None], text,
    a path, or a plain object given by its own attributes. *)
#[local] Set Warnings "-register-all".
Inductive pyval :=
| VNone
| VStr (s : pystr)
| VPath (p : Path.t)
| VObj (attrs : gmap string pyval).

Inductive exn :=
| AttributeError (name : string)
| TypeError
| ValueError
| OSError
| External (what : string).

Inductive res (A : Type) :=
| Ok (a : A)
| Raise (e : exn).
Arguments Ok {A} a.
Arguments Raise {A} e.

(** Computations over a state [Σ] that may raise; the state reached when
    the exception is raised is kept. *)
Definition SE (Σ A : Type) : Type := Σ -> res A * Σ.

Definition ret {Σ A} (a : A) : SE Σ A := fun σ => (Ok a, σ).

Definition raise {Σ A} (e : exn) : SE Σ A := fun σ => (Raise e, σ).

Definition bind {Σ A B} (m : SE Σ A) (k : A -> SE Σ B) : SE Σ B :=
  fun σ => match m σ with
           | (Ok a, σ') => k a σ'
           | (Raise e, σ') => (Raise e, σ')
           end.

Definition of_res {Σ A} (r : res A) : SE Σ A := fun σ => (r, σ).

Definition gets {Σ A} (f : Σ -> A) : SE Σ A := fun σ => (Ok (f σ), σ).

Definition modify {Σ} (f : Σ -> Σ) : SE Σ unit := fun σ => (Ok tt, f σ).

Declare Scope se_scope.
Delimit Scope se_scope with se.
Notation "x <- m ;; k" := (bind m (fun x => k))
  (at level 100, m at next level, right associativity) : se_scope.
Notation "m ;;; k" := (bind m (fun _ => k))
  (at level 100, right associativity) : se_scope.
Local Open Scope se_scope.

(** A [for] loop that updates a local variable. *)
Fixpoint for_fold {Σ A B} (l : list A) (acc : B) (body : A -> B -> SE Σ B) : SE Σ B :=
  match l with
  | [] => ret acc
  | x :: rest => acc' <- body x acc ;; for_fold rest acc' body
  end.

(** A [for] loop whose body only has effects. *)
Fixpoint for_each {Σ A} (l : list A) (body : A -> SE Σ unit) : SE Σ unit :=
  match l with
  | [] => ret tt
  | x :: rest => body x ;;; for_each rest body
  end.

(** ** The outside world *)

(** A file opened for writing: what has reached the file, and what was
    written but not flushed yet. *)
Record File := mkFile { flushed : pystr; pending : pystr }.

(** The text of a file once its writer is closed. *)
Definition file_text (f : File) : pystr := flushed f ++ pending f.

Inductive kind := Info | Error.

(** One line of the run context: how it was reported, and the arguments
    of the reporting call. *)
Definition logline : Type := kind * list pystr.

(** What a child process shows to the runner: the lines read from its
    merged output, each with its terminator, and its return code. *)
Definition child : Type := list pystr * Z.

(** The directories and the files of the disk. *)
Definition disk : Type := gset pystr * gmap pystr File.

(** The file system is observed by name.  [w_deny] holds the names that
    cannot be created or opened for writing; [w_programs] tells, for an
    argument vector and a working directory, how the launch ends, and
    [w_child] what the launched child does to the disk by the time it
    has ended; [w_shown] is the text the run context puts on the console
    for a line it reports. *)
Record World := mkWorld {
  w_dirs : gset pystr;
  w_files : gmap pystr File;
  w_deny : gset pystr;
  w_programs : list pystr -> pystr -> res child;
  w_log : list logline;
  w_stdout : pystr;
  w_spawned : list (list pystr * pystr);
  w_child : list pystr -> pystr -> disk -> disk;
  w_shown : kind -> list pystr -> pystr
}.

Definition set_dirs (f : gset pystr -> gset pystr) (w : World) : World :=
  mkWorld (f (w_dirs w)) (w_files w) (w_deny w) (w_programs w)
          (w_log w) (w_stdout w) (w_spawned w)
          (w_child w) (w_shown w).

Definition set_files (f : gmap pystr File -> gmap pystr File) (w : World) : World :=
  mkWorld (w_dirs w) (f (w_files w)) (w_deny w) (w_programs w)
          (w_log w) (w_stdout w) (w_spawned w)
          (w_child w) (w_shown w).

Definition set_log (f : list logline -> list logline) (w : World) : World :=
  mkWorld (w_dirs w) (w_files w) (w_deny w) (w_programs w)
          (f (w_log w)) (w_stdout w) (w_spawned w)
          (w_child w) (w_shown w).

Definition set_stdout (f : pystr -> pystr) (w : World) : World :=
  mkWorld (w_dirs w) (w_files w) (w_deny w) (w_programs w)
          (w_log w) (f (w_stdout w)) (w_spawned w)
          (w_child w) (w_shown w).

Definition set_spawned
    (f : list (list pystr * pystr) -> list (list pystr * pystr)) (w : World) : World :=
  mkWorld (w_dirs w) (w_files w) (w_deny w) (w_programs w)
          (w_log w) (w_stdout w) (f (w_spawned w))
          (w_child w) (w_shown w).

Definition set_disk (f : disk -> disk) (w : World) : World :=
  mkWorld (fst (f (w_dirs w, w_files w))) (snd (f (w_dirs w, w_files w)))
          (w_deny w) (w_programs w) (w_log w) (w_stdout w) (w_spawned w)
          (w_child w) (w_shown w).

(** The world after the run context has reported the lines [es]: they
    are in its message list and shown on the console. *)
Definition reported (es : list logline) (w : World) : World :=
  set_stdout (fun out => out ++ concat (List.map (fun e => w_shown w (fst e) (snd e)) es))
    (set_log (fun l => l ++ es) w).

(** The error lines of a log, in order. *)
Definition errors (l : list logline) : list (list pystr) :=
  List.map snd (List.filter (fun e => match fst e with Error => true | Info => false end) l).

(** The informational lines of a log, in order. *)
Definition infos (l : list logline) : list (list pystr) :=
  List.map snd (List.filter (fun e => match fst e with Info => true | Error => false end) l).

Module os.

Definition exists_name (w : World) (name : pystr) : bool :=
  bool_decide (name ∈ w_dirs w) || bool_decide (is_Some (w_files w !! name)).

(** [os.fspath]. *)
Definition fspath (v : pyval) : res pystr :=
  match v with
  | VStr s => Ok s
  | VPath p => Ok (Path.to_str p)
  | VNone | VObj _ => Raise TypeError
  end.

(** [os.path.exists(v)]. *)
Definition path_exists (v : pyval) : SE World bool :=
  name <- of_res (fspath v) ;;
  gets (fun w => exists_name w name).

(** [os.makedirs(v)]. *)
Definition makedirs (v : pyval) : SE World unit :=
  name <- of_res (fspath v) ;;
  w <- gets id ;;
  if bool_decide (name ∈ w_deny w) || exists_name w name then raise OSError
  else modify (set_dirs (fun d => {[name]} ∪ d)).

End os.

(** [open(name, "w")]: the file is created or truncated and the writer
    is returned; when that is impossible [OSError] is raised.  A writer
    is named by its file. *)
Definition open_w (name : pystr) : SE World pystr :=
  w <- gets id ;;
  if bool_decide (name ∈ w_deny w) || bool_decide (name ∈ w_dirs w) then raise OSError
  else modify (set_files (insert name (mkFile [] []))) ;;; ret name.

(** [fp.write(s)]. *)
Definition fp_write (fp : pystr) (s : pystr) : SE World unit :=
  modify (set_files (alter (fun f => mkFile (flushed f) (pending f ++ s)) fp)).

(** [fp.flush()]. *)
Definition fp_flush (fp : pystr) : SE World unit :=
  modify (set_files (alter (fun f => mkFile (flushed f ++ pending f) []) fp)).

(** [sys.stdout.write(s)]. *)
Definition stdout_write (s : pystr) : SE World unit :=
  modify (set_stdout (fun out => out ++ s)).

(** The built-in [print(s)]. *)
Definition builtin_print (s : pystr) : SE World unit :=
  stdout_write (s ++ nl).

(** [subprocess.Popen(argv, cwd=cwd, stdout=PIPE, stderr=STDOUT,
    universal_newlines=True)], then the lines of [proc.stdout] and, after
    [proc.communicate()], [proc.returncode]. *)
Definition popen (argv : list pystr) (cwd : pystr) : SE World child :=
  w <- gets id ;;
  match w_programs w argv cwd with
  | Ok c => modify (set_spawned (fun l => l ++ [(argv, cwd)])) ;;; ret c
  | Raise e => raise e
  end.

(** [proc.communicate()]: the child has ended, and what it did to the
    disk is there. *)
Definition communicate (argv : list pystr) (cwd : pystr) : SE World unit :=
  modify (fun w => set_disk (w_child w argv cwd) w).

(** The writer [fp] is dropped: when the method returns, its local [fp]
    is released and CPython closes the writer, which flushes it. *)
Definition release (fp : option pystr) : SE World unit :=
  match fp with
  | Some h => fp_flush h
  | None => ret tt
  end.

(** Truth value of [fp], which is [None] or a writer. *)
Definition truthy {A} (fp : option A) : bool :=
  match fp with Some _ => true | None => false end.

(** ** The repository query facade and the run context *)

(** An entry of [repo.index.diff(None)]. *)
Record Diff := mkDiff { a_path : pystr; change_type : pystr }.

(** A commit; its date is seen through [strftime]. *)
Record Commit := mkCommit {
  hexsha : pystr;
  message : pystr;
  committed_datetime_strftime : pystr -> pystr
}.

(** The repository handle, by the answers of the queries the modules make
    (a query may raise). *)
Record Repo := mkRepo {
  git_ls_files : list pystr -> res pystr;
  git_status : list pystr -> res pystr;
  index_diff_None : res (list Diff);
  iter_commits : Path.t -> res (list Commit)
}.

Record repo_test_suite := mkSuite {
  log_dir : option pystr;
  working_path : Path.t;
  repo_root_path : Path.t;
  relative_repo_path : pystr;
  print_to_stdout : bool;
  repo : Repo
}.

(** Modelled from the spec: the run context's reporting method [print],
    whose code is not part of these sources; it adds one informational
    line, made of its arguments, to the accumulating message list and
    shows it on the console. *)
Definition suite_print (args : list pystr) : SE World unit :=
  modify (reported [(Info, args)]).

(** Modelled from the spec: the run context's reporting method
    [print_error], whose code is not part of these sources; it adds one
    error line, made of its arguments, to the accumulating message list
    and shows it on the console. *)
Definition suite_print_error (args : list pystr) : SE World unit :=
  modify (reported [(Error, args)]).

(** ** Methods *)

(** A method runs on its instance and the world. *)
Definition Method (S A : Type) : Type := SE (S * World) A.

Definition io {S A} (m : SE World A) : Method S A :=
  fun σ => match m (snd σ) with (r, w') => (r, (fst σ, w')) end.

Definition get_self {S} : Method S S := gets fst.

Definition set_self {S} (f : S -> S) : Method S unit :=
  modify (fun σ => (f (fst σ), snd σ)).

(** [v.name] for a value read from an attribute. *)
Definition getattr (v : pyval) (name : string) : res pyval :=
  match v with
  | VObj attrs =>
      match attrs !! name with
      | Some x => Ok x
      | None => Raise (AttributeError name)
      end
  | VNone | VStr _ | VPath _ => Raise (AttributeError name)
  end.

(** [v + s] for a text [s]. *)
Definition add_str (v : pyval) (s : pystr) : res pystr :=
  match v with
  | VStr a => Ok (a ++ s)
  | VNone | VPath _ | VObj _ => Raise TypeError
  end.

Module repo_test.

(** The attributes [__init__] assigns, and [other_attrs] for whatever
    else has been attached to the instance. *)
Record t := mk {
  abort_on_error : bool;
  process_output_filename : option pystr;
  other_attrs : gmap string pyval
}.

Definition __init__ (abort_on_error : bool) (process_output_filename : option pystr) : t :=
  mk abort_on_error process_output_filename ∅.

Definition module_name : pystr := lit "BASE MODULE".

Definition perform_test (suite : repo_test_suite) : Method t bool := ret false.

(** [self.name] for a name [__init__] does not assign. *)
Definition self_attr (self : t) (name : string) : res pyval :=
  match other_attrs self !! name with
  | Some x => Ok x
  | None => Raise (AttributeError name)
  end.

(** The first part of [execute_command]: the transcript, when one is
    asked for.  [inl code] is the early [return code]. *)
Definition open_transcript (self : t) (suite : repo_test_suite)
    (process_output_filename : option pystr) : SE World (Z + option pystr) :=
  match log_dir suite, process_output_filename with
  | Some _, Some fname =>
      rts <- of_res (self_attr self "repo_test_suite") ;;
      dir <- of_res (getattr rts "log_dir") ;;
      found <- os.path_exists dir ;;
      (if negb found then os.makedirs dir else ret tt) ;;;
      own <- of_res (self_attr self "log_dir") ;;
      pre <- of_res (add_str own (lit "/")) ;;
      let process_output_filepath := pre ++ fname in
      h <- open_w process_output_filepath ;;
      let fp := Some h in
      if negb (truthy fp) then
        suite_print_error [lit "Error opening file for writing:"; process_output_filepath] ;;;
        ret (inl (-1))
      else
        suite_print [lit "Writing output to:"; process_output_filepath] ;;;
        ret (inr fp)
  | _, _ => ret (inr None)
  end.

Definition command_message (suite : repo_test_suite) (proc_cmd : list pystr) : pystr :=
  let cmd_str := join (lit " ") proc_cmd in
  lit "Executing the following command in directory:"
    ++ Path.to_str (working_path suite) ++ lit ":" ++ cmd_str.

(** The body of [for line in proc.stdout]. *)
Definition forward_line (suite : repo_test_suite) (fp : option pystr)
    (line : pystr) : SE World unit :=
  (if print_to_stdout suite then stdout_write line else ret tt) ;;;
  match fp with
  | Some h => fp_write h line ;;; fp_flush h
  | None => ret tt
  end.

(** The rest of [execute_command], from the message on. *)
Definition run_command (suite : repo_test_suite) (proc_cmd : list pystr)
    (fp : option pystr) : SE World Z :=
  let message := command_message suite proc_cmd in
  suite_print [message] ;;;
  (match fp with Some h => fp_write h (message ++ nl) | None => ret tt end) ;;;
  proc <- popen proc_cmd (Path.to_str (working_path suite)) ;;
  for_each (fst proc) (forward_line suite fp) ;;;
  communicate proc_cmd (Path.to_str (working_path suite)) ;;;
  release fp ;;;
  ret (snd proc).

Definition execute_command (self : t) (suite : repo_test_suite)
    (proc_cmd : list pystr) (process_output_filename : option pystr) : SE World Z :=
  opened <- open_transcript self suite process_output_filename ;;
  match opened with
  | inl code => ret code
  | inr fp => run_command suite proc_cmd fp
  end.

End repo_test.

Module file_exists_test.

Record t := mk { base : repo_test.t; repo_file_list : list pystr }.

Definition __init__ (repo_file_list : list pystr) (abort_on_error : bool) : t :=
  mk (repo_test.__init__ abort_on_error None) repo_file_list.

Definition module_name : pystr := lit "File Check".

(** The body of [for repo_file in self.repo_file_list], which may
    change [return_val]. *)
Definition check_file (suite : repo_test_suite) (repo_file : pystr)
    (return_val : bool) : SE World bool :=
  let file_path := Path.div (working_path suite) repo_file in
  found <- os.path_exists (VPath file_path) ;;
  return_val' <-
    (if negb found then
       suite_print_error [lit "File does not exist: " ++ Path.to_str file_path] ;;;
       ret false
     else ret return_val) ;;
  suite_print [lit "File exists: " ++ Path.to_str file_path] ;;;
  ret return_val'.

Definition perform_test (suite : repo_test_suite) : Method t bool :=
  self <- get_self ;;
  io (for_fold (repo_file_list self) true (check_file suite)).

End file_exists_test.

(** [s.replace(" ", "_")]. *)
Definition replace_space (s : pystr) : pystr :=
  List.map (fun c => if N.eqb c 32 then 95%N else c) s.

Module make_test.

Record t := mk { base : repo_test.t; make_rule : pystr }.

Definition __init__ (make_rule : pystr) (generate_output_file : bool)
    (make_output_filename : option pystr) (abort_on_error : bool) : t :=
  let make_output_filename :=
    match make_output_filename with
    | None => if generate_output_file
              then Some (replace_space make_rule ++ lit ".log") else None
    | Some f => Some f
    end in
  mk (repo_test.__init__ abort_on_error make_output_filename) make_rule.

Definition module_name : pystr := lit "Makefile".

Definition perform_test (suite : repo_test_suite) : Method t bool :=
  self <- get_self ;;
  let cmd := [lit "make"; make_rule self] in
  return_val <- io (repo_test.execute_command (base self) suite cmd None) ;;
  if negb (return_val =? 0) then ret false else ret true.

End make_test.

(** The reporting scheme shared by the checks that list offending
    entries: a heading and one indented error line per entry, then
    [False]. *)
Definition report_entries (heading : pystr) (files : list pystr) : SE World bool :=
  suite_print_error [heading] ;;;
  for_each files (fun file => suite_print_error [lit "  " ++ file]) ;;;
  ret false.

Module check_for_untracked_files.

Record t := mk { base : repo_test.t; ignore_ok : bool }.

Definition __init__ (ignore_ok : bool) : t :=
  mk (repo_test.__init__ true None) ignore_ok.

Definition module_name : pystr := lit "Check for untracked GIT files".

Definition perform_test (suite : repo_test_suite) : Method t bool :=
  untracked_files <-
    of_res (git_ls_files (repo suite) [lit "--others"; lit "--exclude-standard"]) ;;
  match untracked_files with
  | _ :: _ =>
      io (report_entries (lit "Untracked files found in repository:")
            (splitlines untracked_files))
  | [] =>
      io (suite_print [lit "No untracked files found in repository"]) ;;;
      ret true
  end.

End check_for_untracked_files.

Module check_for_max_repo_files.

Record t := mk { base : repo_test.t; max_dir_files : Z }.

Definition __init__ (max_dir_files : Z) : t :=
  mk (repo_test.__init__ true None) max_dir_files.

Definition module_name : pystr := lit "Check for max tracked repo files".

Definition perform_test (suite : repo_test_suite) : Method t bool :=
  self <- get_self ;;
  listing <- of_res (git_ls_files (repo suite) [relative_repo_path suite]) ;;
  let tracked_files := split LF listing in
  let n_tracked_files := Z.of_nat (length tracked_files) in
  io (suite_print [str_of_int n_tracked_files ++ lit " Tracked git files in "
                     ++ relative_repo_path suite]) ;;;
  if max_dir_files self <? n_tracked_files then
    io (suite_print_error [lit "  Too many tracked files"]) ;;;
    ret false
  else ret true.

End check_for_max_repo_files.

Module check_for_ignored_files.

Record t := mk { base : repo_test.t; check_path : option Path.t }.

Definition __init__ (check_path : option Path.t) : t :=
  mk (repo_test.__init__ true None) check_path.

Definition module_name : pystr := lit "Check for ignored GIT files".

(** [if self.check_path is None: self.check_path = ...working_path]. *)
Definition default_check_path (suite : repo_test_suite) : Method t Path.t :=
  self <- get_self ;;
  match check_path self with
  | None =>
      set_self (fun s => mk (base s) (Some (working_path suite))) ;;;
      ret (working_path suite)
  | Some p => ret p
  end.

Definition perform_test (suite : repo_test_suite) : Method t bool :=
  path <- default_check_path suite ;;
  io (suite_print [lit "Checking for ignored files at " ++ Path.to_str path]) ;;;
  ignored_files <-
    of_res (git_ls_files (repo suite)
              [Path.to_str path; lit "--others"; lit "--ignored"; lit "--exclude-standard"]) ;;
  match ignored_files with
  | _ :: _ =>
      io (report_entries (lit "Ignored files found in repository:")
            (splitlines ignored_files))
  | [] =>
      io (suite_print [lit "No ignored files found in repository"]) ;;;
      ret true
  end.

End check_for_ignored_files.

Module check_for_uncommitted_files.

Record t := mk { base : repo_test.t }.

Definition __init__ : t := mk (repo_test.__init__ true None).

Definition module_name : pystr := lit "Check for uncommitted GIT files".

(** [[item.a_path for item in changes if item.change_type == 'M']]. *)
Definition modified (changes : list Diff) : list pystr :=
  List.map a_path
    (List.filter (fun item => bool_decide (change_type item = lit "M")) changes).

Definition perform_test (suite : repo_test_suite) : Method t bool :=
  uncommitted_changes <- of_res (index_diff_None (repo suite)) ;;
  let modified_files := modified uncommitted_changes in
  match modified_files with
  | _ :: _ =>
      io (report_entries (lit "Uncommitted files found in repository:") modified_files)
  | [] =>
      io (suite_print [lit "No uncommitted files found in repository"]) ;;;
      ret true
  end.

End check_for_uncommitted_files.

Module check_number_of_files.

Record t := mk { base : repo_test.t; max_files : Z }.

(** [sys.maxsize], the default of [max_files]. *)
Definition maxsize : Z := 2 ^ 63 - 1.

Definition __init__ (max_files : Z) : t :=
  mk (repo_test.__init__ true None) max_files.

Definition module_name : pystr := lit "Count files in repo dir".

Definition perform_test (suite : repo_test_suite) : Method t bool :=
  uncommitted_files <- of_res (git_status (repo suite) [lit "--suno"]) ;;
  match uncommitted_files with
  | _ :: _ =>
      io (report_entries (lit "Uncommitted files found in repository:")
            (splitlines uncommitted_files))
  | [] =>
      io (suite_print [lit "No uncommitted files found in repository"]) ;;;
      ret true
  end.

End check_number_of_files.

Module list_git_commits.

Record t := mk { base : repo_test.t; check_path : option Path.t }.

Definition __init__ (check_path : option Path.t) : t :=
  mk (repo_test.__init__ true None) check_path.

Definition module_name : pystr := lit "List Git Commits".

(** [if self.check_path is None: self.check_path = ...working_path]. *)
Definition default_check_path (suite : repo_test_suite) : Method t Path.t :=
  self <- get_self ;;
  match check_path self with
  | None =>
      set_self (fun s => mk (base s) (Some (working_path suite))) ;;;
      ret (working_path suite)
  | Some p => ret p
  end.

(** The line printed for one commit. *)
Definition commit_line (commit : Commit) : pystr :=
  let commit_hash := firstn 7 (hexsha commit) in
  let commit_message := strip (message commit) in
  let commit_date := committed_datetime_strftime commit (lit "%Y-%m-%d %H:%M:%S") in
  commit_hash ++ lit " - " ++ commit_date ++ lit " - " ++ commit_message.

Definition perform_test (suite : repo_test_suite) : Method t bool :=
  path <- default_check_path suite ;;
  relative_path <-
    match Path.relative_to path (repo_root_path suite) with
    | Some rel => ret rel
    | None => raise ValueError
    end ;;
  io (suite_print [lit "Checking for commits at " ++ Path.to_str relative_path]) ;;;
  commits <- of_res (iter_commits (repo suite) relative_path) ;;
  io (for_each commits (fun commit => builtin_print (commit_line commit))) ;;;
  ret true.

End list_git_commits.

(** ** Reading a run *)

(** What a listing check leaves in the log: a closing line when the
    listing is empty, the heading and the entries otherwise. *)
Definition listing_report (ok heading : pystr) (files : list pystr) : list logline :=
  match files with
  | [] => [(Info, [ok])]
  | _ => (Error, [heading]) :: List.map (fun f => (Error, [lit "  " ++ f])) files
  end.

(** Whether the file check finds [repo_file]. *)
Definition found_under (suite : repo_test_suite) (w : World) (repo_file : pystr) : bool :=
  os.exists_name w (Path.to_str (Path.div (working_path suite) repo_file)).

(** The path named [name] below the directory [dir]: the components of
    [name] after those of [dir]. *)
Definition below (dir : Path.t) (name : pystr) : Path.t :=
  Path.mk (Path.root dir) (Path.parts dir ++ Path.parts (Path.of_str name)).

(** Whether [repo_file] exists below the working path. *)
Definition exists_below (suite : repo_test_suite) (w : World) (repo_file : pystr) : bool :=
  os.exists_name w (Path.to_str (below (working_path suite) repo_file)).

(** A relative file name: [working_path / name] stays below the working
    path. *)
Definition is_relative (name : pystr) : bool :=
  negb (Path.is_absolute (Path.of_str name)).

(** The lines the file check reports for one file. *)
Definition file_lines (suite : repo_test_suite) (w : World) (repo_file : pystr) : list logline :=
  let shown := Path.to_str (Path.div (working_path suite) repo_file) in
  (if found_under suite w repo_file then []
   else [(Error, [lit "File does not exist: " ++ shown])])
  ++ [(Info, [lit "File exists: " ++ shown])].

(** [s] ends with [suffix]. *)
Definition ends_with (s suffix : pystr) : Prop := exists pre, s = pre ++ suffix.

(** A transcript file after the loop has written and flushed [lines]. *)
Definition after_lines (lines : list pystr) (f : File) : File :=
  match lines with
  | [] => f
  | _ => mkFile (flushed f ++ pending f ++ concat lines) []
  end.

(** The world after [lines] went through the forwarding loop. *)
Definition forwarded (suite : repo_test_suite) (fp : option pystr)
    (lines : list pystr) (w : World) : World :=
  let w1 := if print_to_stdout suite
            then set_stdout (fun out => out ++ concat lines) w else w in
  match fp with
  | Some h => set_files (alter (after_lines lines) h) w1
  | None => w1
  end.

(** The world after the command message went to the transcript [fp]. *)
Definition header_written (fp : option pystr) (message : pystr) (w : World) : World :=
  match fp with
  | Some h => set_files (alter (fun f => mkFile (flushed f) (pending f ++ message ++ nl)) h) w
  | None => w
  end.

(** The world once the child launched by [argv] in [cwd] has ended. *)
Definition child_done (argv : list pystr) (cwd : pystr) (w : World) : World :=
  set_disk (w_child w argv cwd) w.

(** The world after the writer [fp] has been dropped. *)
Definition released (fp : option pystr) (w : World) : World :=
  match fp with
  | Some h => set_files (alter (fun f => mkFile (flushed f ++ pending f) []) h) w
  | None => w
  end.

(** The child launched by [argv] in [cwd] leaves the file [name] as it
    is. *)
Definition leaves_alone (w : World) (argv : list pystr) (cwd : pystr) (name : pystr) : Prop :=
  forall d : disk, snd (w_child w argv cwd d) !! name = snd d !! name.

(** ** Sample inputs *)

Definition no_programs : list pystr -> pystr -> res child :=
  fun _ _ => Raise (External "FileNotFoundError").

(** A child that leaves the disk as it is. *)
Definition idle : list pystr -> pystr -> disk -> disk := fun _ _ d => d.

(** A console line: the arguments separated by spaces, as the built-in
    [print] shows them. *)
Definition plain : kind -> list pystr -> pystr :=
  fun _ args => join (lit " ") args ++ nl.

(** A world with nothing on disk and nothing reported yet. *)
Definition bare_world (programs : list pystr -> pystr -> res child) : World :=
  mkWorld ∅ ∅ ∅ programs [] [] [] idle plain.

(** A repository where every query comes back empty. *)
Definition clean_repo : Repo :=
  mkRepo (fun _ => Ok []) (fun _ => Ok []) (Ok []) (fun _ => Ok []).

(** A repository whose file listings all hold the one name
    [scratch.log]. *)
Definition scratch_repo : Repo :=
  mkRepo (fun _ => Ok (lit "scratch.log")) (fun _ => Ok []) (Ok []) (fun _ => Ok []).

(** The run context of the directory [/repo/lab] of the repository
    [/repo]. *)
Definition lab_suite (r : Repo) (logs : option pystr) : repo_test_suite :=
  mkSuite logs (Path.of_str (lit "/repo/lab")) (Path.of_str (lit "/repo"))
          (lit "lab") false r.

(** A world whose only file is [/repo/lab/README.md]. *)
Definition readme_world : World :=
  mkWorld ∅ {[ lit "/repo/lab/README.md" := mkFile (lit "lab") [] ]} ∅
          no_programs [] [] [] idle plain.

(** The run context of a clean repository, without a log directory. *)
Definition lab : repo_test_suite := lab_suite clean_repo None.

(** The file check of Scenario B. *)
Definition missing_check : file_exists_test.t :=
  file_exists_test.__init__ [lit "missing.txt"] true.

(** A machine where [make clean], run in [/repo/lab], prints two lines
    and fails with code 1, and [make all] prints one line and succeeds;
    nothing else can be launched. *)
Definition make_programs : list pystr -> pystr -> res child :=
  fun argv cwd =>
    if bool_decide (argv = [lit "make"; lit "clean"] /\ cwd = lit "/repo/lab")
    then Ok ([lit "rm -f out" ++ nl; lit "make: *** [clean] Error 1" ++ nl], 1)
    else if bool_decide (argv = [lit "make"; lit "all"] /\ cwd = lit "/repo/lab")
    then Ok ([lit "done" ++ nl], 0)
    else Raise (External "FileNotFoundError").

Definition make_clean : make_test.t := make_test.__init__ (lit "clean") true None true.

Definition make_all : make_test.t := make_test.__init__ (lit "all") true None true.

(** The run context of the same directory with the log directory
    [logs]. *)
Definition lab_logs : repo_test_suite := lab_suite clean_repo (Some (lit "logs")).

(** A base instance to which the attributes [repo_test_suite] (an object
    whose [log_dir] is [logs]) and [log_dir] ([logs]) have been
    attached. *)
Definition wired : repo_test.t :=
  repo_test.mk true None
    (<["repo_test_suite" := VObj {[ "log_dir" := VStr (lit "logs") ]}]>
       {[ "log_dir" := VStr (lit "logs") ]}).

(** The sample machine with an empty disk where [logs/all.log] cannot be
    opened for writing. *)
Definition locked_world : World :=
  mkWorld ∅ ∅ {[ lit "logs/all.log" ]} make_programs [] [] [] idle plain.

(** A machine where [make nothing], run in [/repo/lab], prints nothing
    and succeeds, and [make gen], run there, prints one line and
    succeeds. *)
Definition build_programs : list pystr -> pystr -> res child :=
  fun argv cwd =>
    if bool_decide (argv = [lit "make"; lit "nothing"] /\ cwd = lit "/repo/lab")
    then Ok ([], 0)
    else if bool_decide (argv = [lit "make"; lit "gen"] /\ cwd = lit "/repo/lab")
    then Ok ([lit "built" ++ nl], 0)
    else Raise (External "FileNotFoundError").

(** On that machine [make gen] leaves the file [/repo/lab/top.bit]
    behind; nothing else touches the disk. *)
Definition build_child : list pystr -> pystr -> disk -> disk :=
  fun argv cwd d =>
    if bool_decide (argv = [lit "make"; lit "gen"] /\ cwd = lit "/repo/lab")
    then (fst d, <[lit "/repo/lab/top.bit" := mkFile (lit "bits") []]> (snd d))
    else d.

(** That machine, with an empty disk. *)
Definition build_world : World :=
  mkWorld ∅ ∅ ∅ build_programs [] [] [] build_child plain.

Definition make_gen : make_test.t := make_test.__init__ (lit "gen") true None true.

(** A repository without any commit: asking for its history raises. *)
Definition unborn_repo : Repo :=
  mkRepo (fun _ => Ok []) (fun _ => Ok []) (Ok []) (fun _ => Raise ValueError).

(** Two commits, newest first. *)
Definition two_commits : list Commit :=
  [mkCommit (lit "0123456789abcdef") (lit "Add top level" ++ nl)
            (fun _ => lit "2024-09-12 10:01:02");
   mkCommit (lit "fedcba9876543210") (lit "Start" ++ nl)
            (fun _ => lit "2024-09-10 08:00:00")].

Definition history_repo : Repo :=
  mkRepo (fun _ => Ok []) (fun _ => Ok []) (Ok []) (fun _ => Ok two_commits).

(** A clean repository whose [git] refuses the status query, as [git]
    does for an option it does not know. *)
Definition refusing_repo : Repo :=
  mkRepo (fun _ => Ok []) (fun _ => Raise (External "GitCommandError"))
         (Ok []) (fun _ => Ok []).

(** The run context of [lab_logs] with the console echo switched on. *)
Definition lab_echo : repo_test_suite :=
  mkSuite (Some (lit "logs")) (Path.of_str (lit "/repo/lab"))
          (Path.of_str (lit "/repo")) (lit "lab") true clean_repo.

(** The number of files of a list that the file check does not find. *)
Definition missing_count (suite : repo_test_suite) (w : World) (files : list pystr) : nat :=
  length (List.filter (fun f => negb (found_under suite w f)) files).

(** A run context like [lab] whose working path is [/elsewhere]. *)
Definition elsewhere : repo_test_suite :=
  mkSuite None (Path.of_str (lit "/elsewhere")) (Path.of_str (lit "/repo"))
          (lit "lab") false clean_repo.

(** The number of line feeds of a text. *)
Definition line_feeds (s : pystr) : nat := count_occ N.eq_dec s LF.

(** A repository where every query raises. *)
Definition failing_repo : Repo :=
  mkRepo (fun _ => Raise (External "GitCommandError"))
         (fun _ => Raise (External "GitCommandError"))
         (Raise (External "GitCommandError"))
         (fun _ => Raise (External "GitCommandError")).

(** A repository that tracks [a.v] and [b.v]; its listing ends with a
    line feed. *)
Definition two_files_repo : Repo :=
  mkRepo (fun _ => Ok (lit "a.v" ++ nl ++ lit "b.v" ++ nl)) (fun _ => Ok [])
         (Ok [mkDiff (lit "new.v") (lit "A"); mkDiff (lit "old.v") (lit "D")])
         (fun _ => Ok []).

(** * Properties *)

(** ** Text *)

Lemma splitlines_from_nil cur s :
  splitlines_from cur s = [] -> cur = [] /\ s = [].
Proof.
  revert cur; induction s as [|c rest IH]; intros cur; simpl.
  - destruct cur; [auto | discriminate].
  - destruct (is_linebreak c); [discriminate |].
    intros H; apply IH in H as [H _]; discriminate.
Qed.

(** [splitlines] gives no line exactly for the empty text. *)
Lemma splitlines_nil_iff s : splitlines s = [] <-> s = [].
Proof.
  split.
  - intros H; apply splitlines_from_nil in H; tauto.
  - intros ->; reflexivity.
Qed.

Lemma split_from_app sep cur p s :
  Forall (fun c => c <> sep) p ->
  split_from sep cur (p ++ s) = split_from sep (rev p ++ cur) s.
Proof.
  revert cur; induction p as [|c p IH]; intros cur Hp; simpl; [reflexivity |].
  inversion Hp as [|? ? Hc Hp']; subst.
  destruct (N.eqb_spec c sep) as [E|_]; [contradiction |].
  rewrite IH by assumption. now rewrite <- app_assoc.
Qed.

(** Splitting at line feeds undoes joining with line feeds, for a
    listing that has at least one line. *)
Lemma split_join_lines (p : pystr) (rest : list pystr) :
  Forall (Forall (fun c => c <> LF)) (p :: rest) ->
  split LF (join nl (p :: rest)) = p :: rest.
Proof.
  unfold split. revert p; induction rest as [|q rest IH]; intros p Hall.
  - inversion Hall; subst. simpl.
    rewrite <- (app_nil_r p) at 1. rewrite split_from_app by assumption.
    simpl. now rewrite app_nil_r, rev_involutive.
  - inversion Hall as [|? ? Hp Hrest]; subst.
    change (join nl (p :: q :: rest)) with (p ++ nl ++ join nl (q :: rest)).
    rewrite split_from_app by assumption.
    unfold nl at 1. cbn [app split_from]. rewrite N.eqb_refl.
    rewrite app_nil_r, rev_involutive. f_equal. now apply IH.
Qed.

Lemma join_snoc sep (l : list pystr) (x : pystr) :
  exists pre, join sep (l ++ [x]) = pre ++ x.
Proof.
  induction l as [|a l [pre IH]]; simpl.
  - now exists [].
  - destruct (l ++ [x]) eqn:E.
    + destruct l; discriminate.
    + exists (a ++ sep ++ pre). rewrite IH. now rewrite <- !app_assoc.
Qed.

(** ** The world *)

(** Runs the monadic plumbing of a goal. *)
Ltac run :=
  cbv beta iota zeta delta
    [bind ret raise of_res gets modify io get_self set_self
     suite_print suite_print_error stdout_write fst snd id].

(** Equality of two worlds that differ by how their lists were built. *)
Ltac same_world w :=
  destruct w; unfold reported, set_log, set_stdout;
  cbn [w_dirs w_files w_deny w_programs w_log w_stdout w_spawned w_child w_shown
       fst snd];
  rewrite ?List.map_app, ?concat_app; cbn [List.map concat];
  rewrite ?app_nil_r, <- ?app_assoc; reflexivity.

Lemma w_log_reported es w : w_log (reported es w) = w_log w ++ es.
Proof. reflexivity. Qed.

Lemma w_stdout_reported es w :
  w_stdout (reported es w)
  = w_stdout w ++ concat (List.map (fun e => w_shown w (fst e) (snd e)) es).
Proof. reflexivity. Qed.

Lemma reported_nil w : reported [] w = w.
Proof. same_world w. Qed.

Lemma reported_app es1 es2 w :
  reported es2 (reported es1 w) = reported (es1 ++ es2) w.
Proof. same_world w. Qed.

(** Equality of two worlds that differ by how their reports were
    grouped. *)
Ltac same_reports :=
  rewrite ?reported_app, ?reported_nil; reflexivity.

Lemma errors_app l1 l2 : errors (l1 ++ l2) = errors l1 ++ errors l2.
Proof. unfold errors. now rewrite List.filter_app, List.map_app. Qed.

Lemma infos_app l1 l2 : infos (l1 ++ l2) = infos l1 ++ infos l2.
Proof. unfold infos. now rewrite List.filter_app, List.map_app. Qed.

(** A loop of error reports adds one error line per element, in order. *)
Lemma for_each_print_error {A} (g : A -> pystr) (l : list A) (w : World) :
  for_each l (fun x => suite_print_error [g x]) w
  = (Ok tt, reported (List.map (fun x => (Error, [g x])) l) w).
Proof.
  revert w; induction l as [|x l IH]; intros w.
  - simpl. unfold ret. now rewrite reported_nil.
  - simpl. unfold bind at 1. unfold suite_print_error at 1, modify.
    rewrite IH, reported_app. reflexivity.
Qed.

Lemma report_entries_run heading files w :
  report_entries heading files w
  = (Ok false,
     reported ((Error, [heading])
                :: List.map (fun f => (Error, [lit "  " ++ f])) files) w).
Proof.
  unfold report_entries, bind. unfold suite_print_error at 1, modify.
  rewrite for_each_print_error, reported_app. reflexivity.
Qed.

Lemma errors_all_error {A} (g : A -> list pystr) (l : list A) :
  errors (List.map (fun x => (Error, g x)) l) = List.map g l.
Proof.
  induction l as [|x l IH]; [reflexivity |].
  unfold errors in *. simpl. now rewrite IH.
Qed.

(** ** Checks that list offending paths *)

Lemma untracked_run suite self w listing :
  git_ls_files (repo suite) [lit "--others"; lit "--exclude-standard"] = Ok listing ->
  check_for_untracked_files.perform_test suite (self, w)
  = (Ok (bool_decide (splitlines listing = [])),
     (self, reported (listing_report (lit "No untracked files found in repository")
          (lit "Untracked files found in repository:") (splitlines listing)) w)).
Proof.
  intros Hq. unfold check_for_untracked_files.perform_test. run.
  rewrite Hq. destruct listing as [|c rest].
  - reflexivity.
  - rewrite report_entries_run.
    destruct (splitlines (c :: rest)) eqn:E.
    + apply splitlines_nil_iff in E. discriminate.
    + reflexivity.
Qed.





(** ** The file check *)

Lemma found_under_reported suite es w repo_file :
  found_under suite (reported es w) repo_file = found_under suite w repo_file.
Proof. reflexivity. Qed.

Lemma file_lines_reported suite es w repo_file :
  file_lines suite (reported es w) repo_file = file_lines suite w repo_file.
Proof. reflexivity. Qed.

(** The loop of the file check, from any value of [return_val]. *)
Lemma file_loop_run suite (files : list pystr) (return_val : bool) (w : World) :
  for_fold files return_val (file_exists_test.check_file suite) w
  = (Ok (return_val && forallb (found_under suite w) files),
     reported (flat_map (file_lines suite w) files) w).
Proof.
  revert return_val w; induction files as [|f files IH]; intros return_val w.
  - simpl. unfold ret. now rewrite andb_true_r, reported_nil.
  - cbn [for_fold forallb flat_map]. unfold bind at 1.
    unfold file_exists_test.check_file, os.path_exists, os.fspath. run.
    fold (found_under suite w f).
    destruct (found_under suite w f) eqn:Hf; cbn [negb]; rewrite IH.
    + rewrite andb_true_l. unfold file_lines at 2. rewrite Hf.
      cbn [app]. same_reports.
    + rewrite andb_false_r. unfold file_lines at 2. rewrite Hf.
      cbn [app andb]. same_reports.
Qed.

Lemma file_check_run suite self w :
  file_exists_test.perform_test suite (self, w)
  = (Ok (forallb (found_under suite w) (file_exists_test.repo_file_list self)),
     (self, reported (flat_map (file_lines suite w) (file_exists_test.repo_file_list self)) w)).
Proof.
  unfold file_exists_test.perform_test. run. now rewrite file_loop_run.
Qed.

(** A relative name is looked up below the working path. *)
Lemma div_relative dir name :
  is_relative name = true -> Path.div dir name = below dir name.
Proof.
  unfold is_relative, Path.div, below.
  destruct (Path.is_absolute (Path.of_str name)); [discriminate | reflexivity].
Qed.

Lemma found_under_relative suite w name :
  is_relative name = true -> found_under suite w name = exists_below suite w name.
Proof.
  intros H. unfold found_under, exists_below. now rewrite div_relative.
Qed.

(** The string of a path made with a plain file name ends with it. *)
Lemma to_str_div_name dir (name : pystr) :
  Path.of_str name = Path.mk [] [name] ->
  ends_with (Path.to_str (Path.div dir name)) name.
Proof.
  intros Hn. unfold Path.div. rewrite Hn. cbn [Path.is_absolute Path.root Path.parts].
  unfold Path.to_str. cbn [Path.root Path.parts].
  destruct (join_snoc [Path.slash] (Path.parts dir) name) as [pre Hpre].
  destruct (Path.root dir) as [|r0 r]; destruct (Path.parts dir ++ [name]) eqn:E.
  - destruct (Path.parts dir); discriminate.
  - exists pre. now rewrite Hpre.
  - destruct (Path.parts dir); discriminate.
  - exists ((r0 :: r) ++ pre). now rewrite Hpre, <- app_assoc.
Qed.

(** C6. For a list of relative paths the file check returns [True]
    exactly when every path of the list exists below the working path;
    when the list is the single missing path [missing.txt] the verdict is
    [False] and exactly one error line is reported, which names
    [missing.txt]. *)
Theorem file_check_verdict (suite : repo_test_suite)
    (self : file_exists_test.t) (w : World) :
  Forall (fun f => is_relative f = true) (file_exists_test.repo_file_list self) ->
  let out := file_exists_test.perform_test suite (self, w) in
  (exists verdict, fst out = Ok verdict /\
     (verdict = true <->
      Forall (fun f => exists_below suite w f = true)
             (file_exists_test.repo_file_list self)))
  /\
  (file_exists_test.repo_file_list self = [lit "missing.txt"] ->
   exists_below suite w (lit "missing.txt") = false ->
   fst out = Ok false /\
   exists line,
     errors (w_log (snd (snd out))) = errors (w_log w) ++ [[line]] /\
     ends_with line (lit "missing.txt")).
Proof.
  intros Hrel out; subst out. rewrite file_check_run. cbn [fst snd]. split.
  - eexists; split; [reflexivity |].
    rewrite forallb_forall, List.Forall_forall. rewrite List.Forall_forall in Hrel.
    split; intros H f Hf.
    + rewrite <- found_under_relative by auto. auto.
    + rewrite found_under_relative by auto. auto.
  - intros Hlist Hmiss. rewrite Hlist in *.
    assert (Hf : found_under suite w (lit "missing.txt") = false).
    { rewrite found_under_relative; [assumption |]. reflexivity. }
    cbn [forallb flat_map]. rewrite Hf. split; [reflexivity |].
    rewrite w_log_reported, errors_app. unfold file_lines. rewrite Hf.
    eexists; split; [reflexivity |].
    destruct (to_str_div_name (working_path suite) (lit "missing.txt") eq_refl)
      as [pre Hpre].
    exists (lit "File does not exist: " ++ pre). now rewrite Hpre, <- app_assoc.
Qed.

Lemma file_check_verdict_witness :
  (exists verdict,
     fst (file_exists_test.perform_test lab (missing_check, readme_world)) = Ok verdict /\
     (verdict = true <->
      Forall (fun f => exists_below lab readme_world f = true) [lit "missing.txt"]))
  /\
  fst (file_exists_test.perform_test lab (missing_check, readme_world)) = Ok false /\
  exists line,
    errors (w_log (snd (snd (file_exists_test.perform_test lab
                               (missing_check, readme_world)))))
      = [[line]] /\
    ends_with line (lit "missing.txt").
Proof.
  destruct (file_check_verdict lab missing_check readme_world) as [V M].
  - repeat constructor.
  - split; [exact V |]. apply M; reflexivity.
Defined.

(** Scenario A: the file is there and the verdict is [True]. *)
Example file_check_readme :
  fst (file_exists_test.perform_test lab
         (file_exists_test.__init__ [lit "README.md"] true, readme_world))
  = Ok true.
Proof. vm_compute. reflexivity. Qed.

(** C10. For every path of its list, in order, the file check emits the
    informational line [File exists: <path>], also for a path that does
    not exist, where the line directly follows the error line
    [File does not exist: <path>]. *)
Theorem file_check_reports_every_path (suite : repo_test_suite)
    (self : file_exists_test.t) (w : World) :
  let out := file_exists_test.perform_test suite (self, w) in
  let shown f := Path.to_str (Path.div (working_path suite) f) in
  w_log (snd (snd out))
    = w_log w ++
      flat_map (fun f =>
          (if os.exists_name w (shown f) then []
           else [(Error, [lit "File does not exist: " ++ shown f])])
          ++ [(Info, [lit "File exists: " ++ shown f])])
        (file_exists_test.repo_file_list self)
  /\
  infos (w_log (snd (snd out)))
    = infos (w_log w) ++
      List.map (fun f => [lit "File exists: " ++ shown f])
               (file_exists_test.repo_file_list self).
Proof.
  intros out shown; subst out. rewrite file_check_run. cbn [fst snd].
  rewrite w_log_reported. split; [reflexivity |].
  rewrite infos_app. f_equal.
  induction (file_exists_test.repo_file_list self) as [|f l IH]; [reflexivity |].
  cbn [flat_map List.map]. rewrite infos_app, IH. f_equal.
  unfold file_lines. fold (shown f). destruct (found_under suite w f); reflexivity.
Qed.


(** ** The process runner *)

Lemma after_lines_cons l lines f :
  after_lines lines (mkFile (flushed f ++ pending f ++ l) []) = after_lines (l :: lines) f.
Proof.
  destruct lines as [|l' lines]; cbn [after_lines flushed pending concat].
  - now rewrite !app_nil_r.
  - now rewrite app_nil_l, <- !app_assoc.
Qed.

Lemma forward_line_run suite fp line w :
  repo_test.forward_line suite fp line w = (Ok tt, forwarded suite fp [line] w).
Proof.
  unfold repo_test.forward_line, forwarded, fp_write, fp_flush.
  destruct (print_to_stdout suite), fp as [h|]; run;
    destruct w as [d fs dn pr lg so sp]; unfold set_stdout, set_files; cbn [w_dirs w_files w_deny w_programs w_log w_stdout w_spawned concat];
    rewrite ?app_nil_r; try reflexivity.
  - do 2 f_equal. rewrite alter_alter_eq. apply alter_ext. intros f _. cbn.
    now rewrite app_nil_r,  <- ?app_assoc.
  - do 2 f_equal. rewrite alter_alter_eq. apply alter_ext. intros f _. cbn.
    now rewrite app_nil_r,  <- ?app_assoc.
Qed.

Lemma forwarded_nil suite fp w : forwarded suite fp [] w = w.
Proof.
  unfold forwarded. destruct (print_to_stdout suite), fp as [h|];
  destruct w as [d fs dn pr lg so sp]; unfold set_stdout, set_files; cbn [w_dirs w_files w_deny w_programs w_log w_stdout w_spawned concat after_lines];
    rewrite ?app_nil_r; try reflexivity; f_equal; apply alter_id; reflexivity.
Qed.

Lemma forwarded_cons suite fp l lines w :
  forwarded suite fp lines (forwarded suite fp [l] w) = forwarded suite fp (l :: lines) w.
Proof.
  unfold forwarded. destruct (print_to_stdout suite), fp as [h|];
  destruct w as [d fs dn pr lg so sp]; unfold set_stdout, set_files; cbn [w_dirs w_files w_deny w_programs w_log w_stdout w_spawned concat];
    rewrite ?app_nil_r, <- ?app_assoc; try reflexivity; f_equal;
    rewrite alter_alter_eq; apply alter_ext; intros f _; cbn [after_lines concat compose];
    rewrite ?app_nil_r; apply after_lines_cons.
Qed.

Lemma forward_loop_run suite fp lines w :
  for_each lines (repo_test.forward_line suite fp) w = (Ok tt, forwarded suite fp lines w).
Proof.
  revert w; induction lines as [|l lines IH]; intros w.
  - cbn [for_each]. unfold ret. now rewrite forwarded_nil.
  - cbn [for_each]. unfold bind. rewrite forward_line_run, IH.
    now rewrite forwarded_cons.
Qed.

(** Case analysis along [open_transcript]. *)
Ltac split_cases :=
  repeat match goal with
  | |- context [match ?x with _ => _ end] =>
      match type of x with
      | res _ => destruct x eqn:?
      | option _ => destruct x eqn:?
      | bool => destruct x eqn:?
      | pyval => destruct x eqn:?
      | sumbool _ _ => destruct x
      end; cbn [negb truthy]
  | |- context [if ?x then _ else _] => destruct x eqn:?; cbn [negb truthy]
  end.

Lemma open_transcript_cases self suite pof w :
  match repo_test.open_transcript self suite pof w with
  | (Ok (inr (Some p)), w1) =>
      w_files w1 !! p = Some (mkFile [] []) /\
      w_programs w1 = w_programs w /\ errors (w_log w1) = errors (w_log w) /\
      w_spawned w1 = w_spawned w
  | (Ok (inr None), w1) => w1 = w
  | (Ok (inl _), _) => False
  | (Raise e, w1) =>
      w_log w1 = w_log w /\ w_spawned w1 = w_spawned w /\ w_programs w1 = w_programs w
  end.
Proof.
  unfold repo_test.open_transcript, os.path_exists, os.makedirs, open_w.
  destruct (log_dir suite) as [d|]; [destruct pof as [fname|] |]; try reflexivity.
  run. split_cases; unfold reported;
    cbn [w_log w_spawned w_programs set_dirs set_files set_log set_stdout
         w_files w_deny w_dirs];
    auto using lookup_insert_eq.
  all: try (repeat split; try reflexivity; try apply lookup_insert_eq).
  all: rewrite errors_app; cbn; now rewrite app_nil_r.
Qed.

Lemma run_command_run suite proc_cmd fp w lines code :
  w_programs w proc_cmd (Path.to_str (working_path suite)) = Ok (lines, code) ->
  repo_test.run_command suite proc_cmd fp w
  = (Ok code,
     released fp
       (child_done proc_cmd (Path.to_str (working_path suite))
          (forwarded suite fp lines
             (set_spawned (fun l => l ++ [(proc_cmd, Path.to_str (working_path suite))])
                (header_written fp (repo_test.command_message suite proc_cmd)
                   (reported [(Info, [repo_test.command_message suite proc_cmd])] w)))))).
Proof.
  intros Hp.
  unfold repo_test.run_command, popen, communicate, release, fp_write, fp_flush,
    header_written, released, child_done.
  destruct fp as [h|]; run;
    cbn [w_programs set_files set_log set_stdout reported]; rewrite Hp, forward_loop_run;
    reflexivity.
Qed.

Lemma run_command_raise suite proc_cmd fp w e :
  w_programs w proc_cmd (Path.to_str (working_path suite)) = Raise e ->
  repo_test.run_command suite proc_cmd fp w
  = (Raise e,
     header_written fp (repo_test.command_message suite proc_cmd)
       (reported [(Info, [repo_test.command_message suite proc_cmd])] w)).
Proof.
  intros Hp. unfold repo_test.run_command, popen, fp_write, header_written.
  destruct fp as [h|]; run; cbn [w_programs set_files set_log set_stdout reported];
    rewrite Hp; reflexivity.
Qed.

Lemma w_log_forwarded suite fp lines w : w_log (forwarded suite fp lines w) = w_log w.
Proof. unfold forwarded. now destruct (print_to_stdout suite), fp. Qed.

Lemma w_log_header_written fp message w : w_log (header_written fp message w) = w_log w.
Proof. now destruct fp. Qed.

Lemma w_log_released fp w : w_log (released fp w) = w_log w.
Proof. now destruct fp. Qed.

Lemma w_log_child_done argv cwd w : w_log (child_done argv cwd w) = w_log w.
Proof. reflexivity. Qed.

Lemma run_command_errors suite proc_cmd fp w :
  errors (w_log (snd (repo_test.run_command suite proc_cmd fp w))) = errors (w_log w).
Proof.
  destruct (w_programs w proc_cmd (Path.to_str (working_path suite))) as [[lines code]|e] eqn:Hp.
  - rewrite (run_command_run _ _ _ _ _ _ Hp). cbn [snd].
    rewrite w_log_released, w_log_child_done, w_log_forwarded. cbn [w_log set_spawned].
    rewrite w_log_header_written, w_log_reported, errors_app. cbn. apply app_nil_r.
  - rewrite (run_command_raise _ _ _ _ _ Hp). cbn [snd].
    rewrite w_log_header_written, w_log_reported, errors_app. cbn. apply app_nil_r.
Qed.

(** The transcript once the method has returned, when the child leaves
    it alone. *)
Lemma transcript_after_run suite p lines message argv cwd g (w : World) :
  w_files w !! p = Some (mkFile [] []) ->
  leaves_alone w argv cwd p ->
  w_files (released (Some p)
             (child_done argv cwd
                (forwarded suite (Some p) lines
                   (set_spawned g (header_written (Some p) message w))))) !! p
  = Some (mkFile (message ++ nl ++ concat lines) []).
Proof.
  intros Hp Hchild. unfold released, child_done, forwarded, header_written.
  assert (E : forall out : pystr -> pystr,
    w_files (set_files (alter (fun f => mkFile (flushed f ++ pending f) []) p)
      (set_disk (w_child w argv cwd)
         (set_files (alter (after_lines lines) p)
            (set_stdout out
               (set_spawned g
                  (set_files
                     (alter (fun f => mkFile (flushed f) (pending f ++ message ++ nl)) p)
                     w)))))) !! p
    = Some (mkFile (message ++ nl ++ concat lines) [])).
  { intros out. cbn [w_files set_files set_disk set_stdout set_spawned w_dirs w_child snd].
    rewrite lookup_alter_eq, Hchild. cbn [snd].
    rewrite !lookup_alter_eq, Hp. cbn [fmap option_fmap option_map]. f_equal.
    destruct lines as [|l lines]; cbn [after_lines flushed pending concat app].
    - now rewrite app_nil_r.
    - rewrite ?app_nil_r, <- ?app_assoc. reflexivity. }
  destruct (print_to_stdout suite).
  - apply E.
  - apply (E (fun out => out)).
Qed.

Lemma execute_command_errors self suite proc_cmd pof w :
  errors (w_log (snd (repo_test.execute_command self suite proc_cmd pof w)))
  = errors (w_log w).
Proof.
  unfold repo_test.execute_command, bind.
  pose proof (open_transcript_cases self suite pof w) as H.
  destruct (repo_test.open_transcript self suite pof w) as [[[c|[p|]]|e] w1].
  - contradiction.
  - rewrite run_command_errors. tauto.
  - rewrite run_command_errors. now subst.
  - cbn [snd]. destruct H as [H _]. now rewrite H.
Qed.

(** C1, on the code.  An instance built by [__init__], of the base class
    or of the build-rule module, has no attribute [repo_test_suite]: as
    soon as a transcript is asked for in a run context with a log
    directory, [execute_command] ends in [AttributeError] and leaves the
    world as it was; no file is written, no command is launched and no
    code is returned, whatever the command would print. *)
Theorem transcript_request_raises (suite : repo_test_suite) (d : pystr)
    (proc_cmd : list pystr) (fname : pystr) (w : World) :
  log_dir suite = Some d ->
  (forall abort stored,
     repo_test.execute_command (repo_test.__init__ abort stored) suite proc_cmd
       (Some fname) w
     = (Raise (AttributeError "repo_test_suite"), w)) /\
  (forall make_rule generate given abort,
     repo_test.execute_command
       (make_test.base (make_test.__init__ make_rule generate given abort)) suite
       proc_cmd (Some fname) w
     = (Raise (AttributeError "repo_test_suite"), w)).
Proof.
  intros Hd. split; intros;
    unfold repo_test.execute_command, repo_test.open_transcript, repo_test.self_attr;
    rewrite Hd; reflexivity.
Qed.

Lemma transcript_request_raises_witness :
  w_programs (bare_world make_programs) [lit "make"; lit "all"]
    (Path.to_str (working_path lab_logs)) = Ok ([lit "done" ++ nl], 0) /\
  (forall abort stored,
     repo_test.execute_command (repo_test.__init__ abort stored) lab_logs
       [lit "make"; lit "all"] (Some (lit "all.log")) (bare_world make_programs)
     = (Raise (AttributeError "repo_test_suite"), bare_world make_programs)) /\
  (forall make_rule generate given abort,
     repo_test.execute_command
       (make_test.base (make_test.__init__ make_rule generate given abort)) lab_logs
       [lit "make"; lit "all"] (Some (lit "all.log")) (bare_world make_programs)
     = (Raise (AttributeError "repo_test_suite"), bare_world make_programs)).
Proof.
  split; [vm_compute; reflexivity |].
  apply (transcript_request_raises lab_logs (lit "logs") [lit "make"; lit "all"]
           (lit "all.log") (bare_world make_programs)).
  reflexivity.
Defined.

(** The sample machine: on an instance that carries the attributes the
    method reads, [make all] returns 0 and the transcript starts with the
    line that announces the command, before the line of the command. *)
Example transcript_on_sample_machine :
  fst (repo_test.execute_command wired lab_logs
         [lit "make"; lit "all"] (Some (lit "all.log")) (bare_world make_programs))
    = Ok 0 /\
  file_text <$>
    (w_files (snd (repo_test.execute_command wired lab_logs
         [lit "make"; lit "all"] (Some (lit "all.log")) (bare_world make_programs)))
       !! lit "logs/all.log")
    = Some (lit "Executing the following command in directory:/repo/lab:make all"
              ++ nl ++ lit "done" ++ nl).
Proof. split; vm_compute; reflexivity. Qed.

(** C2, on the code.  No run of [execute_command] ever reports an error
    line, and its transcript part never takes the early return.  When
    the transcript cannot be opened the call ends in [OSError]: nothing
    is reported, no code is returned, no child is launched.  On an
    instance as [__init__] leaves it the call ends in [AttributeError]
    before the file is even tried. *)
Theorem open_failure_raises :
  (forall self suite proc_cmd pof w,
     errors (w_log (snd (repo_test.execute_command self suite proc_cmd pof w)))
       = errors (w_log w) /\
     forall code, fst (repo_test.open_transcript self suite pof w) <> Ok (inl code))
  /\
  (os.exists_name locked_world (lit "logs/all.log") = false /\
   fst (open_w (lit "logs/all.log") locked_world) = Raise OSError)
  /\
  (let out := repo_test.execute_command wired lab_logs [lit "make"; lit "all"]
                (Some (lit "all.log")) locked_world in
   fst out = Raise OSError /\ w_log (snd out) = [] /\ w_spawned (snd out) = [])
  /\
  (let out := repo_test.execute_command (make_test.base make_all) lab_logs
                [lit "make"; lit "all"] (Some (lit "all.log")) locked_world in
   fst out = Raise (AttributeError "repo_test_suite") /\
   w_log (snd out) = [] /\ w_spawned (snd out) = []).
Proof.
  split.
  { intros self suite proc_cmd pof w. split; [apply execute_command_errors |].
    intros code Hc.
    pose proof (open_transcript_cases self suite pof w) as H.
    destruct (repo_test.open_transcript self suite pof w) as [r w1].
    cbn [fst] in Hc. subst r. exact H. }
  split; [split; vm_compute; reflexivity |].
  split; (split; [vm_compute; reflexivity | split; vm_compute; reflexivity]).
Qed.

(** ** The build-rule module *)

(** C8. Whatever the build rule, when the process runner returns an exit
    code the module's verdict is [True] exactly when that code is 0. *)
Theorem make_test_verdict (suite : repo_test_suite) (self : make_test.t)
    (w w' : World) (code : Z) :
  repo_test.execute_command (make_test.base self) suite
    [lit "make"; make_test.make_rule self] None w = (Ok code, w') ->
  exists verdict,
    make_test.perform_test suite (self, w) = (Ok verdict, (self, w')) /\
    (verdict = true <-> code = 0).
Proof.
  intros Hx. unfold make_test.perform_test. run. rewrite Hx.
  destruct (Z.eqb_spec code 0) as [E|E]; cbn [negb].
  - exists true. split; [reflexivity | tauto].
  - exists false. split; [reflexivity |]. split; [discriminate | contradiction].
Qed.

Lemma make_test_verdict_witness :
  exists verdict,
    make_test.perform_test lab (make_clean, bare_world make_programs)
    = (Ok verdict,
       (make_clean,
        snd (repo_test.execute_command (make_test.base make_clean) lab
               [lit "make"; lit "clean"] None (bare_world make_programs)))) /\
    (verdict = true <-> 1 = 0).
Proof.
  apply (make_test_verdict lab make_clean (bare_world make_programs)).
  rewrite (surjective_pairing (repo_test.execute_command _ _ _ _ _)).
  f_equal.
Defined.

(** Scenario C and its counterpart, run on the sample machine. *)
Example make_clean_fails :
  fst (make_test.perform_test lab (make_clean, bare_world make_programs)) = Ok false.
Proof. vm_compute. reflexivity. Qed.

Example make_all_passes :
  fst (make_test.perform_test lab (make_all, bare_world make_programs)) = Ok true.
Proof. vm_compute. reflexivity. Qed.

(** ** The commit listing *)

Lemma print_loop_run {A} (g : A -> pystr) (l : list A) (w : World) :
  for_each l (fun x => builtin_print (g x)) w
  = (Ok tt, set_stdout (fun out => out ++ concat (List.map (fun x => g x ++ nl) l)) w).
Proof.
  revert w; induction l as [|x l IH]; intros w.
  - cbn [for_each List.map concat]. unfold ret. f_equal.
    destruct w; unfold set_stdout; cbn. now rewrite app_nil_r.
  - cbn [for_each List.map concat]. unfold bind, builtin_print at 1.
    unfold stdout_write, modify. rewrite IH. f_equal. same_world w.
Qed.

(** What [list_git_commits.perform_test] looks at: [check_path], or the
    working path when there is none. *)
Lemma list_git_commits_run suite self w :
  let path := match list_git_commits.check_path self with
              | None => working_path suite
              | Some p => p
              end in
  list_git_commits.perform_test suite (self, w)
  = match Path.relative_to path (repo_root_path suite) with
    | None =>
        (Raise ValueError,
         (list_git_commits.mk (list_git_commits.base self) (Some path), w))
    | Some relative_path =>
        let w1 := reported [(Info, [lit "Checking for commits at "
                                      ++ Path.to_str relative_path])] w in
        match iter_commits (repo suite) relative_path with
        | Raise e =>
            (Raise e, (list_git_commits.mk (list_git_commits.base self) (Some path), w1))
        | Ok commits =>
            (Ok true,
             (list_git_commits.mk (list_git_commits.base self) (Some path),
              set_stdout (fun out => out ++
                 concat (List.map (fun c => list_git_commits.commit_line c ++ nl) commits))
                w1))
        end
    end.
Proof.
  intros path; subst path.
  unfold list_git_commits.perform_test, list_git_commits.default_check_path.
  destruct self as [b [p|]]; run;
    cbn [list_git_commits.check_path list_git_commits.base];
    (destruct (Path.relative_to _ _); [| reflexivity]);
    (destruct (iter_commits _ _); [| reflexivity]);
    now rewrite print_loop_run.
Qed.

(** C9 (amended). The commit listing never answers [False].  It returns
    [True] for every history the repository gives back, the empty one
    included, when [check_path] (by default the working path) lies under
    the root of the repository; when it does not, the call ends in
    [ValueError], and when the history query raises, in the exception of
    the query. *)
Theorem list_git_commits_outcome (suite : repo_test_suite)
    (self : list_git_commits.t) (w : World) :
  fst (list_git_commits.perform_test suite (self, w))
  = match Path.relative_to
            (match list_git_commits.check_path self with
             | None => working_path suite
             | Some p => p
             end) (repo_root_path suite) with
    | None => Raise ValueError
    | Some relative_path =>
        match iter_commits (repo suite) relative_path with
        | Ok commits => Ok true
        | Raise e => Raise e
        end
    end.
Proof.
  rewrite list_git_commits_run.
  destruct (Path.relative_to _ _); [| reflexivity].
  cbv zeta. now destruct (iter_commits _ _).
Qed.

(** C9, as stated, fails: with a working path outside the root of the
    repository the listing ends in [ValueError], and on a repository
    without any commit, where the history query raises, it ends in that
    exception; neither run returns [True]. *)
Lemma list_git_commits_always_true_counterexample :
  fst (list_git_commits.perform_test elsewhere
         (list_git_commits.__init__ None, bare_world no_programs))
    = Raise ValueError /\
  fst (list_git_commits.perform_test (lab_suite unborn_repo None)
         (list_git_commits.__init__ None, bare_world no_programs))
    = Raise ValueError /\
  fst (list_git_commits.perform_test elsewhere
         (list_git_commits.__init__ None, bare_world no_programs))
    <> Ok true.
Proof.
  split; [vm_compute; reflexivity |]. split; [vm_compute; reflexivity |].
  vm_compute. discriminate.
Qed.

(** The listing on an empty history, and what is printed for a history
    of two commits. *)
Example list_git_commits_empty_history :
  fst (list_git_commits.perform_test lab
         (list_git_commits.__init__ None, bare_world no_programs)) = Ok true.
Proof. vm_compute. reflexivity. Qed.

Example list_git_commits_printed :
  w_stdout (snd (snd (list_git_commits.perform_test (lab_suite history_repo None)
         (list_git_commits.__init__ None, bare_world no_programs))))
  = lit "Checking for commits at lab" ++ nl
    ++ lit "0123456 - 2024-09-12 10:01:02 - Add top level" ++ nl
    ++ lit "fedcba9 - 2024-09-10 08:00:00 - Start" ++ nl.
Proof. vm_compute. reflexivity. Qed.

(** The listing never answers [False]. *)
Lemma list_git_commits_never_false suite self w :
  fst (list_git_commits.perform_test suite (self, w)) <> Ok false.
Proof.
  unfold list_git_commits.perform_test, list_git_commits.default_check_path.
  destruct self as [b [p|]]; run; cbn [list_git_commits.check_path];
    (destruct (Path.relative_to _ _); [| discriminate]);
    (destruct (iter_commits _ _); [| discriminate]);
    rewrite print_loop_run; discriminate.
Qed.

(** ** The tracked-file count *)

Lemma max_repo_files_run suite self w listing :
  git_ls_files (repo suite) [relative_repo_path suite] = Ok listing ->
  let n := Z.of_nat (length (split LF listing)) in
  check_for_max_repo_files.perform_test suite (self, w)
  = (Ok (n <=? check_for_max_repo_files.max_dir_files self),
     (self, reported ((Info, [str_of_int n ++ lit " Tracked git files in " ++ relative_repo_path suite])
        :: (if n <=? check_for_max_repo_files.max_dir_files self then []
            else [(Error, [lit "  Too many tracked files"])])) w)).
Proof.
  intros Hq n. unfold check_for_max_repo_files.perform_test. run. rewrite Hq.
  fold n. rewrite Z.leb_antisym.
  destruct (check_for_max_repo_files.max_dir_files self <? n); cbn [negb];
    same_world w.
Qed.

(** When at least one path is tracked, the verdict compares the number
    of tracked paths with the maximum. *)
Lemma max_repo_files_listed suite self w (p : pystr) (rest : list pystr) :
  Forall (Forall (fun c => c <> LF)) (p :: rest) ->
  git_ls_files (repo suite) [relative_repo_path suite] = Ok (join nl (p :: rest)) ->
  fst (check_for_max_repo_files.perform_test suite (self, w))
  = Ok (Z.of_nat (length (p :: rest)) <=? check_for_max_repo_files.max_dir_files self).
Proof.
  intros Hall Hq. rewrite (max_repo_files_run _ _ _ _ Hq). cbn [fst].
  now rewrite split_join_lines.
Qed.

(** C5, on the code.  With no tracked path the listing is the empty
    text, which [split] turns into one empty field: the module counts one
    file, and with a maximum of 0 it reports too many files and returns
    [False], although 0 does not exceed 0. *)
Theorem max_repo_files_empty_listing :
  git_ls_files (repo lab) [relative_repo_path lab] = Ok (join nl []) /\
(Z.of_nat (length (@nil pystr)) <=? 0) = true /\
  fst (check_for_max_repo_files.perform_test lab
         (check_for_max_repo_files.__init__ 0, bare_world no_programs)) = Ok false /\
  w_log (snd (snd (check_for_max_repo_files.perform_test lab
         (check_for_max_repo_files.__init__ 0, bare_world no_programs))))
  = [(Info, [lit "1 Tracked git files in lab"]);
     (Error, [lit "  Too many tracked files"])].
Proof. repeat split; vm_compute; reflexivity. Qed.

(** ** Configuration fields *)

Lemma io_self {S A} (m : SE World A) (self : S) (w : World) :
  fst (snd (io m (self, w))) = self.
Proof. unfold io. cbn [fst snd]. now destruct (m w). Qed.

(** C3 (amended). [perform_test] never changes a configuration field,
    with one exception: the ignored-files check and the commit listing
    replace a [check_path] that is [None] by the working path of the run
    context, and leave a given [check_path] as it is; this holds also
    when the call raises. *)
Theorem configuration_after_perform_test (suite : repo_test_suite) (w : World) :
  (forall self, fst (snd (file_exists_test.perform_test suite (self, w))) = self) /\
  (forall self, fst (snd (make_test.perform_test suite (self, w))) = self) /\
  (forall self, fst (snd (check_for_untracked_files.perform_test suite (self, w))) = self) /\
  (forall self, fst (snd (check_for_max_repo_files.perform_test suite (self, w))) = self) /\
  (forall self, fst (snd (check_for_uncommitted_files.perform_test suite (self, w))) = self) /\
  (forall self, fst (snd (check_number_of_files.perform_test suite (self, w))) = self) /\
  (forall self,
     fst (snd (check_for_ignored_files.perform_test suite (self, w)))
     = check_for_ignored_files.mk (check_for_ignored_files.base self)
         (Some (match check_for_ignored_files.check_path self with
                | None => working_path suite
                | Some p => p
                end))) /\
  (forall self,
     fst (snd (list_git_commits.perform_test suite (self, w)))
     = list_git_commits.mk (list_git_commits.base self)
         (Some (match list_git_commits.check_path self with
                | None => working_path suite
                | Some p => p
                end))).
Proof.
  repeat split; intros self.
  - now rewrite file_check_run.
  - unfold make_test.perform_test. run.
    destruct (repo_test.execute_command _ _ _ _ w) as [[code|e] w']; [| reflexivity].
    now destruct (code =? 0).
  - unfold check_for_untracked_files.perform_test. run.
    destruct (git_ls_files _ _) as [[|c rest]|e]; try reflexivity.
    now rewrite report_entries_run.
  - unfold check_for_max_repo_files.perform_test. run.
    destruct (git_ls_files _ _) as [listing|e]; [| reflexivity].
    now destruct (_ <? _).
  - unfold check_for_uncommitted_files.perform_test. run.
    destruct (index_diff_None _) as [changes|e]; [| reflexivity].
    destruct (check_for_uncommitted_files.modified changes); [reflexivity |].
    now rewrite report_entries_run.
  - unfold check_number_of_files.perform_test. run.
    destruct (git_status _ _) as [[|c rest]|e]; try reflexivity.
    now rewrite report_entries_run.
  - unfold check_for_ignored_files.perform_test,
      check_for_ignored_files.default_check_path.
    destruct self as [b [p|]]; run;
      cbn [check_for_ignored_files.check_path check_for_ignored_files.base];
      (destruct (git_ls_files _ _) as [[|c rest]|e]; try reflexivity;
       now rewrite report_entries_run).
  - unfold list_git_commits.perform_test, list_git_commits.default_check_path.
    destruct self as [b [p|]]; run;
      cbn [list_git_commits.check_path list_git_commits.base];
      (destruct (Path.relative_to _ _); [| reflexivity]);
      (destruct (iter_commits _ _); [| reflexivity]);
      now rewrite print_loop_run.
Qed.

(** C3, as stated, fails: built without a path, both modules have
    [check_path = None] before the call and the working path after. *)
Lemma configuration_fixed_counterexample :
  (check_for_ignored_files.check_path (check_for_ignored_files.__init__ None) = None /\
   check_for_ignored_files.check_path
     (fst (snd (check_for_ignored_files.perform_test lab
        (check_for_ignored_files.__init__ None, bare_world no_programs))))
   = Some (working_path lab) /\
   fst (snd (check_for_ignored_files.perform_test lab
        (check_for_ignored_files.__init__ None, bare_world no_programs)))
   <> check_for_ignored_files.__init__ None)
  /\
  (list_git_commits.check_path (list_git_commits.__init__ None) = None /\
   list_git_commits.check_path
     (fst (snd (list_git_commits.perform_test lab
        (list_git_commits.__init__ None, bare_world no_programs))))
   = Some (working_path lab) /\
   fst (snd (list_git_commits.perform_test lab
        (list_git_commits.__init__ None, bare_world no_programs)))
   <> list_git_commits.__init__ None).
Proof.
  repeat split; try (vm_compute; reflexivity); vm_compute; discriminate.
Qed.

(** ** The file count and the uncommitted-files check *)

Lemma uncommitted_run suite self w changes :
  index_diff_None (repo suite) = Ok changes ->
  check_for_uncommitted_files.perform_test suite (self, w)
  = (Ok (bool_decide (check_for_uncommitted_files.modified changes = [])),
     (self, reported (listing_report (lit "No uncommitted files found in repository")
          (lit "Uncommitted files found in repository:")
          (check_for_uncommitted_files.modified changes)) w)).
Proof.
  intros Hq. unfold check_for_uncommitted_files.perform_test. run. rewrite Hq.
  destruct (check_for_uncommitted_files.modified changes) as [|f files].
  - reflexivity.
  - now rewrite report_entries_run.
Qed.

Lemma number_of_files_run suite self w status :
  git_status (repo suite) [lit "--suno"] = Ok status ->
  check_number_of_files.perform_test suite (self, w)
  = (Ok (bool_decide (splitlines status = [])),
     (self, reported (listing_report (lit "No uncommitted files found in repository")
          (lit "Uncommitted files found in repository:") (splitlines status)) w)).
Proof.
  intros Hq. unfold check_number_of_files.perform_test. run. rewrite Hq.
  destruct status as [|c rest].
  - reflexivity.
  - rewrite report_entries_run.
    destruct (splitlines (c :: rest)) eqn:E.
    + apply splitlines_nil_iff in E. discriminate.
    + reflexivity.
Qed.

(** C4, on the code.  The file count asks [git] for its status with the
    option [--suno], which [git] does not know: whenever [git] refuses
    the query the file count ends in that exception, in every state of
    the repository, where the uncommitted-files check asks the index and
    answers with a verdict. *)
Theorem count_raises_where_uncommitted_answers (suite : repo_test_suite) (w : World)
    (counter : check_number_of_files.t) (checker : check_for_uncommitted_files.t)
    (e : exn) (changes : list Diff) :
  git_status (repo suite) [lit "--suno"] = Raise e ->
  index_diff_None (repo suite) = Ok changes ->
  check_number_of_files.perform_test suite (counter, w) = (Raise e, (counter, w)) /\
  exists verdict,
    fst (check_for_uncommitted_files.perform_test suite (checker, w)) = Ok verdict /\
    (verdict = true <-> check_for_uncommitted_files.modified changes = []).
Proof.
  intros Hs Hd. split.
  - unfold check_number_of_files.perform_test. run. now rewrite Hs.
  - rewrite (uncommitted_run _ _ _ _ Hd). cbn [fst].
    eexists. split; [reflexivity |]. apply bool_decide_eq_true.
Qed.

Lemma count_raises_where_uncommitted_answers_witness :
  check_number_of_files.perform_test (lab_suite refusing_repo None)
    (check_number_of_files.__init__ check_number_of_files.maxsize,
     bare_world no_programs)
    = (Raise (External "GitCommandError"),
       (check_number_of_files.__init__ check_number_of_files.maxsize,
        bare_world no_programs)) /\
  exists verdict,
    fst (check_for_uncommitted_files.perform_test (lab_suite refusing_repo None)
           (check_for_uncommitted_files.__init__, bare_world no_programs))
      = Ok verdict /\
    (verdict = true <-> check_for_uncommitted_files.modified [] = []).
Proof.
  apply (count_raises_where_uncommitted_answers (lab_suite refusing_repo None)
           (bare_world no_programs)
           (check_number_of_files.__init__ check_number_of_files.maxsize)
           check_for_uncommitted_files.__init__ (External "GitCommandError") []).
  - reflexivity.
  - reflexivity.
Defined.

(** On a clean repository whose [git] refuses the option, the
    uncommitted-files check passes and the file count raises. *)
Example count_on_clean_repository :
  fst (check_for_uncommitted_files.perform_test (lab_suite refusing_repo None)
         (check_for_uncommitted_files.__init__, bare_world no_programs)) = Ok true /\
  fst (check_number_of_files.perform_test (lab_suite refusing_repo None)
         (check_number_of_files.__init__ check_number_of_files.maxsize,
          bare_world no_programs)) = Raise (External "GitCommandError").
Proof. split; vm_compute; reflexivity. Qed.

(** * Further properties *)

(** ** The process runner, continued *)

Lemma exists_name_insert w name p f :
  os.exists_name w name = true ->
  os.exists_name (set_files (insert p f) w) name = true.
Proof.
  unfold os.exists_name. cbn [w_dirs w_files set_files].
  rewrite !orb_true_iff, !bool_decide_eq_true. intros [H|H]; [now left | right].
  destruct (decide (p = name)) as [->|Hne].
  - rewrite lookup_insert_eq. eauto.
  - now rewrite lookup_insert_ne.
Qed.

Lemma open_transcript_success self suite pof w p :
  fst (repo_test.open_transcript self suite pof w) = Ok (inr (Some p)) ->
  exists fname own name,
    pof = Some fname /\
    repo_test.self_attr self "log_dir" = Ok (VStr own) /\
    p = own ++ lit "/" ++ fname /\
    (exists rts dir, repo_test.self_attr self "repo_test_suite" = Ok rts /\
        getattr rts "log_dir" = Ok dir /\ os.fspath dir = Ok name) /\
    os.exists_name (snd (repo_test.open_transcript self suite pof w)) name = true /\
    w_files (snd (repo_test.open_transcript self suite pof w))
      = <[p := mkFile [] []]> (w_files w) /\
    w_log (snd (repo_test.open_transcript self suite pof w))
      = w_log w ++ [(Info, [lit "Writing output to:"; p])] /\
    w_stdout (snd (repo_test.open_transcript self suite pof w))
      = w_stdout w ++ w_shown w Info [lit "Writing output to:"; p].
Proof.
  unfold repo_test.open_transcript, os.path_exists, os.makedirs, open_w.
  destruct (log_dir suite) as [d|]; [destruct pof as [fname|] |]; try discriminate.
  run.
  destruct (repo_test.self_attr self "repo_test_suite") as [rts|] eqn:Hrts;
    [| intros H; discriminate H].
  destruct (getattr rts "log_dir") as [dir|] eqn:Hdir; [| intros H; discriminate H].
  destruct (os.fspath dir) as [name|] eqn:Hname; [| intros H; discriminate H].
  destruct (os.exists_name w name) eqn:Hex; cbn [negb]; cbv beta iota.
  - destruct (repo_test.self_attr self "log_dir") as [own|] eqn:Hown;
      [| intros H; discriminate H].
    destruct own as [|own| |]; cbn [add_str]; cbv beta iota;
      try (intros H; discriminate H).
    match goal with |- context [if ?b then _ else _] => destruct b eqn:Hden end;
      cbv beta iota; [intros H; discriminate H |].
    cbn [negb truthy]. cbv beta iota.
    intros H. injection H as <-.
    exists fname, own, name. rewrite <- app_assoc.
    split; [reflexivity |]. split; [reflexivity |]. split; [reflexivity |].
    split; [eauto |]. split; [| split; [reflexivity | split; [reflexivity |]]].
    + apply (exists_name_insert w name). exact Hex.
    + rewrite w_stdout_reported. cbn [List.map concat fst snd]. now rewrite app_nil_r.
  - rewrite Hex.
    destruct (bool_decide (name ∈ w_deny w) || false) eqn:Hmk; cbv beta iota;
      [intros H; discriminate H |].
    destruct (repo_test.self_attr self "log_dir") as [own|] eqn:Hown;
      [| intros H; discriminate H].
    destruct own as [|own| |]; cbn [add_str]; cbv beta iota;
      try (intros H; discriminate H).
    match goal with |- context [if ?b then _ else _] => destruct b eqn:Hden end;
      cbv beta iota; [intros H; discriminate H |].
    cbn [negb truthy]. cbv beta iota.
    intros H. injection H as <-.
    exists fname, own, name. rewrite <- app_assoc.
    split; [reflexivity |]. split; [reflexivity |]. split; [reflexivity |].
    split; [eauto |]. split; [| split; [reflexivity | split; [reflexivity |]]].
    + unfold os.exists_name, reported. cbn [w_dirs set_files set_dirs set_log set_stdout].
      apply orb_true_iff; left. apply bool_decide_eq_true. set_solver.
    + rewrite w_stdout_reported. cbn [List.map concat fst snd]. now rewrite app_nil_r.
Qed.

Lemma open_transcript_skipped self suite pof w :
  log_dir suite = None \/ pof = None ->
  repo_test.open_transcript self suite pof w = (Ok (inr None), w).
Proof.
  unfold repo_test.open_transcript.
  intros [H|H]; rewrite H; [reflexivity |]. now destruct (log_dir suite).
Qed.

Lemma w_stdout_forwarded suite fp lines w :
  w_stdout (forwarded suite fp lines w)
  = w_stdout w ++ (if print_to_stdout suite then concat lines else []).
Proof.
  unfold forwarded.
  destruct (print_to_stdout suite), fp; cbn [w_stdout set_files set_stdout];
    now rewrite ?app_nil_r.
Qed.

Lemma w_spawned_forwarded suite fp lines w :
  w_spawned (forwarded suite fp lines w) = w_spawned w.
Proof. unfold forwarded. now destruct (print_to_stdout suite), fp. Qed.

Lemma w_spawned_released fp w : w_spawned (released fp w) = w_spawned w.
Proof. now destruct fp. Qed.

Lemma w_stdout_released fp w : w_stdout (released fp w) = w_stdout w.
Proof. now destruct fp. Qed.

(** X1. Without a log directory in the run context, or without a file
    name, [execute_command] creates and writes nothing of its own: the
    disk after the call is the disk the child leaves.  It reports the
    command, launches it once in the working path and returns its
    code. *)
Theorem execute_command_without_transcript (self : repo_test.t)
    (suite : repo_test_suite) (proc_cmd : list pystr) (pof : option pystr)
    (w : World) (lines : list pystr) (code : Z) :
  log_dir suite = None \/ pof = None ->
  w_programs w proc_cmd (Path.to_str (working_path suite)) = Ok (lines, code) ->
  let out := repo_test.execute_command self suite proc_cmd pof w in
  fst out = Ok code /\
  (w_dirs (snd out), w_files (snd out))
    = w_child w proc_cmd (Path.to_str (working_path suite)) (w_dirs w, w_files w) /\
  w_log (snd out) = w_log w ++ [(Info, [repo_test.command_message suite proc_cmd])] /\
  w_spawned (snd out)
    = w_spawned w ++ [(proc_cmd, Path.to_str (working_path suite))].
Proof.
  intros Hno Hp out; subst out. unfold repo_test.execute_command, bind.
  rewrite (open_transcript_skipped _ _ _ _ Hno), (run_command_run _ _ _ _ _ _ Hp).
  cbn [fst snd]. unfold released, child_done, forwarded, header_written.
  destruct (print_to_stdout suite);
    cbn [w_dirs w_files w_log w_spawned w_child set_disk set_stdout set_spawned
         set_log reported];
    (split; [reflexivity |]); (split; [| split; reflexivity]);
    now destruct (w_child w proc_cmd (Path.to_str (working_path suite))
                    (w_dirs w, w_files w)).
Qed.

Lemma execute_command_without_transcript_witness :
  fst (repo_test.execute_command wired lab [lit "make"; lit "gen"]
         (Some (lit "gen.log")) build_world) = Ok 0 /\
  (w_dirs (snd (repo_test.execute_command wired lab [lit "make"; lit "gen"]
         (Some (lit "gen.log")) build_world)),
   w_files (snd (repo_test.execute_command wired lab [lit "make"; lit "gen"]
         (Some (lit "gen.log")) build_world)))
    = w_child build_world [lit "make"; lit "gen"] (Path.to_str (working_path lab))
        (w_dirs build_world, w_files build_world) /\
  w_log (snd (repo_test.execute_command wired lab [lit "make"; lit "gen"]
         (Some (lit "gen.log")) build_world))
    = w_log build_world
      ++ [(Info, [repo_test.command_message lab [lit "make"; lit "gen"]])] /\
  w_spawned (snd (repo_test.execute_command wired lab [lit "make"; lit "gen"]
         (Some (lit "gen.log")) build_world))
    = w_spawned build_world
      ++ [([lit "make"; lit "gen"], Path.to_str (working_path lab))].
Proof.
  apply (execute_command_without_transcript wired lab [lit "make"; lit "gen"]
           (Some (lit "gen.log")) build_world [lit "built" ++ nl] 0).
  - left. reflexivity.
  - vm_compute. reflexivity.
Defined.

(** X2. When the command cannot be launched, [execute_command] ends in
    the exception of the launch: no child is recorded, the command had
    already been reported, and a transcript that was opened holds the
    announcing line only, still unflushed. *)
Theorem execute_command_launch_failure (self : repo_test.t)
    (suite : repo_test_suite) (proc_cmd : list pystr) (pof fp : option pystr)
    (w : World) (e : exn) :
  fst (repo_test.open_transcript self suite pof w) = Ok (inr fp) ->
  w_programs w proc_cmd (Path.to_str (working_path suite)) = Raise e ->
  let out := repo_test.execute_command self suite proc_cmd pof w in
  fst out = Raise e /\
  w_spawned (snd out) = w_spawned w /\
  In (Info, [repo_test.command_message suite proc_cmd]) (w_log (snd out)) /\
  forall p, fp = Some p ->
    w_files (snd out) !! p
    = Some (mkFile [] (repo_test.command_message suite proc_cmd ++ nl)).
Proof.
  intros Ho Hp out; subst out. unfold repo_test.execute_command, bind.
  pose proof (open_transcript_cases self suite pof w) as H.
  destruct (repo_test.open_transcript self suite pof w) as [r w1].
  cbn [fst] in Ho. subst r.
  assert (Hw : w_programs w1 = w_programs w /\ w_spawned w1 = w_spawned w).
  { destruct fp; [tauto | now subst]. }
  destruct Hw as [Hw Hs]. rewrite <- Hw in Hp.
  rewrite (run_command_raise _ _ _ _ _ Hp). cbn [fst snd].
  split; [reflexivity |]. split.
  { destruct fp; exact Hs. }
  split.
  { rewrite w_log_header_written, w_log_reported. apply in_or_app; right. now left. }
  intros p ->. destruct H as [Hf _].
  cbn [header_written w_files set_files set_log set_stdout reported].
  now rewrite lookup_alter_eq, Hf.
Qed.

Lemma execute_command_launch_failure_witness :
  fst (repo_test.execute_command wired lab_logs [lit "make"; lit "all"]
         (Some (lit "all.log")) (bare_world no_programs))
    = Raise (External "FileNotFoundError") /\
  w_spawned (snd (repo_test.execute_command wired lab_logs [lit "make"; lit "all"]
         (Some (lit "all.log")) (bare_world no_programs)))
    = w_spawned (bare_world no_programs) /\
  In (Info, [repo_test.command_message lab_logs [lit "make"; lit "all"]])
     (w_log (snd (repo_test.execute_command wired lab_logs [lit "make"; lit "all"]
         (Some (lit "all.log")) (bare_world no_programs)))) /\
  forall p, Some (lit "logs/all.log") = Some p ->
    w_files (snd (repo_test.execute_command wired lab_logs [lit "make"; lit "all"]
         (Some (lit "all.log")) (bare_world no_programs))) !! p
    = Some (mkFile [] (repo_test.command_message lab_logs [lit "make"; lit "all"] ++ nl)).
Proof.
  apply (execute_command_launch_failure wired lab_logs [lit "make"; lit "all"]
           (Some (lit "all.log")) (Some (lit "logs/all.log"))
           (bare_world no_programs) (External "FileNotFoundError")).
  - vm_compute. reflexivity.
  - reflexivity.
Defined.

(** X3. On an instance that has no attribute [repo_test_suite], as
    [__init__] leaves it, a call that asks for a transcript in a run
    context with a log directory ends in [AttributeError] before anything
    is reported, written or launched. *)
Theorem execute_command_missing_attribute (self : repo_test.t)
    (suite : repo_test_suite) (proc_cmd : list pystr) (d fname : pystr) (w : World) :
  log_dir suite = Some d ->
  repo_test.other_attrs self !! "repo_test_suite" = None ->
  repo_test.execute_command self suite proc_cmd (Some fname) w
  = (Raise (AttributeError "repo_test_suite"), w).
Proof.
  intros Hd Ha.
  unfold repo_test.execute_command, repo_test.open_transcript, repo_test.self_attr.
  rewrite Hd, Ha. reflexivity.
Qed.

Lemma execute_command_missing_attribute_witness :
  repo_test.execute_command (repo_test.__init__ true (Some (lit "all.log"))) lab_logs
    [lit "make"; lit "all"] (Some (lit "all.log")) (bare_world make_programs)
  = (Raise (AttributeError "repo_test_suite"), bare_world make_programs).
Proof.
  apply (execute_command_missing_attribute
           (repo_test.__init__ true (Some (lit "all.log"))) lab_logs
           [lit "make"; lit "all"] (lit "logs") (lit "all.log")
           (bare_world make_programs)).
  - reflexivity.
  - reflexivity.
Defined.

Lemma open_transcript_frame self suite pof w :
  w_child (snd (repo_test.open_transcript self suite pof w)) = w_child w /\
  w_shown (snd (repo_test.open_transcript self suite pof w)) = w_shown w /\
  w_programs (snd (repo_test.open_transcript self suite pof w)) = w_programs w.
Proof.
  unfold repo_test.open_transcript, os.path_exists, os.makedirs, open_w.
  destruct (log_dir suite) as [d|]; [destruct pof as [fname|] |];
    try (repeat split; reflexivity).
  run. split_cases; repeat split; reflexivity.
Qed.

Lemma open_transcript_console self suite pof w fp :
  fst (repo_test.open_transcript self suite pof w) = Ok (inr fp) ->
  w_stdout (snd (repo_test.open_transcript self suite pof w))
    = w_stdout w ++ match fp with
                    | Some p => w_shown w Info [lit "Writing output to:"; p]
                    | None => []
                    end /\
  w_spawned (snd (repo_test.open_transcript self suite pof w)) = w_spawned w.
Proof.
  intros Ho. destruct fp as [p|].
  - destruct (open_transcript_success _ _ _ _ _ Ho)
      as (fname & own & name & _ & _ & _ & _ & _ & _ & _ & Hout).
    pose proof (open_transcript_cases self suite pof w) as H.
    destruct (repo_test.open_transcript self suite pof w) as [r w1].
    cbn [fst snd] in *. subst r. tauto.
  - pose proof (open_transcript_cases self suite pof w) as H.
    destruct (repo_test.open_transcript self suite pof w) as [r w1].
    cbn [fst snd] in *. subst r. subst w1. now rewrite app_nil_r.
Qed.

(** X4. After a run of [execute_command] the console holds, after what it
    held before: the line [Writing output to:] when a transcript was
    opened, the line that announces the command, and then the lines of
    the child, in order, exactly when the run context asks for the echo.
    The child is recorded once, with the working path as its
    directory. *)
Theorem execute_command_echo (self : repo_test.t) (suite : repo_test_suite)
    (proc_cmd : list pystr) (pof fp : option pystr) (w : World)
    (lines : list pystr) (code : Z) :
  fst (repo_test.open_transcript self suite pof w) = Ok (inr fp) ->
  w_programs w proc_cmd (Path.to_str (working_path suite)) = Ok (lines, code) ->
  let out := repo_test.execute_command self suite proc_cmd pof w in
  w_stdout (snd out)
    = w_stdout w
      ++ match fp with
         | Some p => w_shown w Info [lit "Writing output to:"; p]
         | None => []
         end
      ++ w_shown w Info [repo_test.command_message suite proc_cmd]
      ++ (if print_to_stdout suite then concat lines else []) /\
  w_spawned (snd out)
    = w_spawned w ++ [(proc_cmd, Path.to_str (working_path suite))].
Proof.
  intros Ho Hp out; subst out.
  destruct (open_transcript_console _ _ _ _ _ Ho) as (Hout & Hsp).
  destruct (open_transcript_frame self suite pof w) as (_ & Hsh & Hpr).
  unfold repo_test.execute_command, bind.
  destruct (repo_test.open_transcript self suite pof w) as [r w1].
  cbn [fst snd] in *. subst r. rewrite <- Hpr in Hp.
  rewrite (run_command_run _ _ _ _ _ _ Hp). cbn [snd].
  rewrite w_stdout_released, w_spawned_released.
  unfold child_done. cbn [w_stdout w_spawned set_disk].
  rewrite w_stdout_forwarded, w_spawned_forwarded.
  assert (E : forall x, w_stdout (header_written fp
                (repo_test.command_message suite proc_cmd) x) = w_stdout x)
    by (intros x; now destruct fp).
  assert (E' : forall x, w_spawned (header_written fp
                (repo_test.command_message suite proc_cmd) x) = w_spawned x)
    by (intros x; now destruct fp).
  cbn [w_stdout w_spawned set_spawned]. rewrite E, E', w_stdout_reported.
  cbn [List.map concat fst snd w_spawned reported set_stdout set_log].
  rewrite Hout, Hsp, Hsh, app_nil_r, <- !app_assoc. split; reflexivity.
Qed.

Lemma execute_command_echo_witness :
  w_stdout (snd (repo_test.execute_command wired lab_echo [lit "make"; lit "clean"]
                   (Some (lit "clean.log")) (bare_world make_programs)))
    = w_stdout (bare_world make_programs)
      ++ w_shown (bare_world make_programs) Info
           [lit "Writing output to:"; lit "logs/clean.log"]
      ++ w_shown (bare_world make_programs) Info
           [repo_test.command_message lab_echo [lit "make"; lit "clean"]]
      ++ (if print_to_stdout lab_echo
          then concat [lit "rm -f out" ++ nl; lit "make: *** [clean] Error 1" ++ nl]
          else []) /\
  w_spawned (snd (repo_test.execute_command wired lab_echo [lit "make"; lit "clean"]
                   (Some (lit "clean.log")) (bare_world make_programs)))
    = w_spawned (bare_world make_programs)
      ++ [([lit "make"; lit "clean"], Path.to_str (working_path lab_echo))].
Proof.
  apply (execute_command_echo wired lab_echo [lit "make"; lit "clean"]
           (Some (lit "clean.log")) (Some (lit "logs/clean.log"))
           (bare_world make_programs)
           [lit "rm -f out" ++ nl; lit "make: *** [clean] Error 1" ++ nl] 1).
  - vm_compute. reflexivity.
  - vm_compute. reflexivity.
Defined.

(** X5. After [execute_command] has returned with a transcript opened,
    and when the child leaves that file alone, the method returns the
    code of the child and the file holds the line that announces the
    command followed by the lines of the child in order, with nothing
    left in the writer: the writer is dropped on return, also when the
    child printed nothing. *)
Theorem transcript_after_return (self : repo_test.t) (suite : repo_test_suite)
    (proc_cmd : list pystr) (pof : option pystr) (p : pystr) (w : World)
    (lines : list pystr) (code : Z) :
  fst (repo_test.open_transcript self suite pof w) = Ok (inr (Some p)) ->
  w_programs w proc_cmd (Path.to_str (working_path suite)) = Ok (lines, code) ->
  leaves_alone w proc_cmd (Path.to_str (working_path suite)) p ->
  fst (repo_test.execute_command self suite proc_cmd pof w) = Ok code /\
  w_files (snd (repo_test.execute_command self suite proc_cmd pof w)) !! p
  = Some (mkFile (repo_test.command_message suite proc_cmd ++ nl ++ concat lines) []).
Proof.
  intros Ho Hp Hchild.
  destruct (open_transcript_frame self suite pof w) as (Hch & _ & Hpr).
  pose proof (open_transcript_cases self suite pof w) as H.
  unfold repo_test.execute_command, bind.
  destruct (repo_test.open_transcript self suite pof w) as [r w1].
  cbn [fst snd] in *. subst r. rewrite <- Hpr in Hp. destruct H as [Hf _].
  rewrite (run_command_run _ _ _ _ _ _ Hp). cbn [fst snd].
  split; [reflexivity |].
  apply (transcript_after_run suite p lines
           (repo_test.command_message suite proc_cmd) proc_cmd
           (Path.to_str (working_path suite)) _
           (reported [(Info, [repo_test.command_message suite proc_cmd])] w1)).
  - exact Hf.
  - unfold leaves_alone in *. cbn [w_child reported set_stdout set_log].
    now rewrite Hch.
Qed.

Lemma transcript_after_return_witness :
  fst (repo_test.execute_command wired lab_logs [lit "make"; lit "nothing"]
         (Some (lit "nothing.log")) build_world) = Ok 0 /\
  w_files (snd (repo_test.execute_command wired lab_logs [lit "make"; lit "nothing"]
                  (Some (lit "nothing.log")) build_world))
    !! lit "logs/nothing.log"
  = Some (mkFile (repo_test.command_message lab_logs [lit "make"; lit "nothing"] ++ nl
                    ++ concat []) []).
Proof.
  apply (transcript_after_return wired lab_logs [lit "make"; lit "nothing"]
           (Some (lit "nothing.log")) (lit "logs/nothing.log") build_world [] 0).
  - vm_compute. reflexivity.
  - vm_compute. reflexivity.
  - intros d. reflexivity.
Defined.

(** X6. When a transcript is opened its name is [self.log_dir], a
    slash and the file name asked for; the file starts empty whatever it
    held before, the directory named by [self.repo_test_suite.log_dir]
    exists afterwards, and one line [Writing output to:] is reported. *)
Theorem transcript_file_name (self : repo_test.t) (suite : repo_test_suite)
    (pof : option pystr) (p : pystr) (w : World) :
  fst (repo_test.open_transcript self suite pof w) = Ok (inr (Some p)) ->
  exists fname own name,
    pof = Some fname /\
    repo_test.self_attr self "log_dir" = Ok (VStr own) /\
    p = own ++ lit "/" ++ fname /\
    (exists rts dir, repo_test.self_attr self "repo_test_suite" = Ok rts /\
        getattr rts "log_dir" = Ok dir /\ os.fspath dir = Ok name) /\
    os.exists_name (snd (repo_test.open_transcript self suite pof w)) name = true /\
    w_files (snd (repo_test.open_transcript self suite pof w))
      = <[p := mkFile [] []]> (w_files w) /\
    w_log (snd (repo_test.open_transcript self suite pof w))
      = w_log w ++ [(Info, [lit "Writing output to:"; p])].
Proof.
  intros Ho.
  destruct (open_transcript_success _ _ _ _ _ Ho)
    as (fname & own & name & H1 & H2 & H3 & H4 & H5 & H6 & H7 & _).
  exists fname, own, name. tauto.
Qed.

Lemma transcript_file_name_witness :
  exists fname own name,
    Some (lit "all.log") = Some fname /\
    repo_test.self_attr wired "log_dir" = Ok (VStr own) /\
    lit "logs/all.log" = own ++ lit "/" ++ fname /\
    (exists rts dir, repo_test.self_attr wired "repo_test_suite" = Ok rts /\
        getattr rts "log_dir" = Ok dir /\ os.fspath dir = Ok name) /\
    os.exists_name (snd (repo_test.open_transcript wired lab_logs
                           (Some (lit "all.log")) (bare_world make_programs))) name
      = true /\
    w_files (snd (repo_test.open_transcript wired lab_logs
                    (Some (lit "all.log")) (bare_world make_programs)))
      = <[lit "logs/all.log" := mkFile [] []]> (w_files (bare_world make_programs)) /\
    w_log (snd (repo_test.open_transcript wired lab_logs
                  (Some (lit "all.log")) (bare_world make_programs)))
      = w_log (bare_world make_programs)
        ++ [(Info, [lit "Writing output to:"; lit "logs/all.log"])].
Proof.
  apply (transcript_file_name wired lab_logs (Some (lit "all.log"))
           (lit "logs/all.log") (bare_world make_programs)).
  vm_compute. reflexivity.
Defined.
(** ** The build-rule module, continued *)

Lemma make_test_run suite self w :
  make_test.perform_test suite (self, w)
  = match repo_test.run_command suite [lit "make"; make_test.make_rule self] None w with
    | (Ok code, w') => (Ok (code =? 0), (self, w'))
    | (Raise e, w') => (Raise e, (self, w'))
    end.
Proof.
  unfold make_test.perform_test, repo_test.execute_command.
  unfold bind at 1. unfold get_self, gets. cbn [fst snd].
  unfold bind at 1. unfold io. cbn [fst snd]. unfold bind at 1.
  rewrite open_transcript_skipped by (now right).
  destruct (repo_test.run_command _ _ _ w) as [[code|e] w']; [| reflexivity].
  unfold ret. now destruct (code =? 0).
Qed.

(** X7. The build-rule module opens no transcript, whatever log file
    name [__init__] has stored: it calls the runner without a file name,
    so the disk after the call is the disk the child leaves, and the
    disk before the call when the launch fails. *)
Theorem make_test_writes_nothing (suite : repo_test_suite) (self : make_test.t)
    (w : World) :
  (w_dirs (snd (snd (make_test.perform_test suite (self, w)))),
   w_files (snd (snd (make_test.perform_test suite (self, w)))))
  = match w_programs w [lit "make"; make_test.make_rule self]
            (Path.to_str (working_path suite)) with
    | Ok _ =>
        w_child w [lit "make"; make_test.make_rule self]
          (Path.to_str (working_path suite)) (w_dirs w, w_files w)
    | Raise _ => (w_dirs w, w_files w)
    end.
Proof.
  rewrite make_test_run.
  destruct (w_programs w [lit "make"; make_test.make_rule self]
              (Path.to_str (working_path suite))) as [[lines code]|e] eqn:Hp.
  - rewrite (run_command_run _ _ _ _ _ _ Hp). cbn [fst snd].
    unfold released, child_done, forwarded, header_written.
    destruct (print_to_stdout suite);
      cbn [w_dirs w_files w_child set_disk set_stdout set_spawned set_log reported];
      now destruct (w_child w [lit "make"; make_test.make_rule self]
                      (Path.to_str (working_path suite)) (w_dirs w, w_files w)).
  - rewrite (run_command_raise _ _ _ _ _ Hp). reflexivity.
Qed.

(** The build of the sample machine leaves its product on the disk and
    no log file. *)
Example make_gen_product :
  fst (make_test.perform_test lab_logs (make_gen, build_world)) = Ok true /\
  w_files (snd (snd (make_test.perform_test lab_logs (make_gen, build_world))))
    = {[ lit "/repo/lab/top.bit" := mkFile (lit "bits") [] ]}.
Proof. split; vm_compute; reflexivity. Qed.

(** X8. The build-rule module runs [make <rule>] once in the working
    path.  When the launch succeeds the verdict tells whether the exit
    code is 0; when it fails the module ends in the exception of the
    launch instead of answering [False], and no child is recorded. *)
Theorem make_test_launch (suite : repo_test_suite) (self : make_test.t) (w : World) :
  match w_programs w [lit "make"; make_test.make_rule self]
          (Path.to_str (working_path suite)) with
  | Ok (lines, code) =>
      fst (make_test.perform_test suite (self, w)) = Ok (code =? 0) /\
      w_spawned (snd (snd (make_test.perform_test suite (self, w))))
        = w_spawned w ++ [([lit "make"; make_test.make_rule self],
                           Path.to_str (working_path suite))]
  | Raise e =>
      fst (make_test.perform_test suite (self, w)) = Raise e /\
      w_spawned (snd (snd (make_test.perform_test suite (self, w)))) = w_spawned w
  end.
Proof.
  rewrite make_test_run.
  destruct (w_programs w [lit "make"; make_test.make_rule self]
              (Path.to_str (working_path suite))) as [[lines code]|e] eqn:Hp.
  - rewrite (run_command_run _ _ _ _ _ _ Hp). cbn [fst snd].
    rewrite w_spawned_released. unfold child_done. cbn [w_spawned set_disk].
    now rewrite w_spawned_forwarded.
  - rewrite (run_command_raise _ _ _ _ _ Hp). split; reflexivity.
Qed.

Lemma replace_space_clean (s : pystr) : ~ In 32%N (replace_space s).
Proof.
  induction s as [|c s IH]; cbn [replace_space List.map In]; [tauto |].
  intros [H|H]; [| now apply IH].
  destruct (N.eqb_spec c 32) as [E|E]; [discriminate | congruence].
Qed.

(** X9. The log file name [__init__] derives from a build rule is the
    rule with every space turned into an underscore, followed by [.log]:
    it holds no space and is four characters longer than the rule.  A
    name that is given is kept as it is, and without a name and without
    the request for a file there is none. *)
Theorem make_test_log_name (make_rule : pystr) (abort : bool) :
  (exists name,
     repo_test.process_output_filename
       (make_test.base (make_test.__init__ make_rule true None abort)) = Some name /\
     name = replace_space make_rule ++ lit ".log" /\
     ~ In 32%N name /\
     length name = (length make_rule + 4)%nat) /\
  (forall generate given,
     repo_test.process_output_filename
       (make_test.base (make_test.__init__ make_rule generate (Some given) abort))
     = Some given) /\
  repo_test.process_output_filename
    (make_test.base (make_test.__init__ make_rule false None abort)) = None.
Proof.
  split; [| split; [intros generate given |]; reflexivity].
  eexists. split; [reflexivity |]. split; [reflexivity |]. split.
  - intros H. apply in_app_or in H as [H|H].
    + exact (replace_space_clean _ H).
    + vm_compute in H. intuition discriminate.
  - rewrite length_app. unfold replace_space. now rewrite length_map.
Qed.
(** ** The file check, continued *)

Lemma errors_file_lines suite w (files : list pystr) :
  length (errors (flat_map (file_lines suite w) files)) = missing_count suite w files.
Proof.
  unfold missing_count.
  induction files as [|f files IH]; [reflexivity |].
  cbn [flat_map List.filter]. rewrite errors_app, length_app, IH.
  unfold file_lines. destruct (found_under suite w f); reflexivity.
Qed.

(** X10. The file check never raises and touches neither the disk nor
    the children: it only reports.  It adds as many error lines as there
    are files it does not find and one informational line per file, and
    the console receives what the run context shows for each of these
    lines, in order. *)
Theorem file_check_frame (suite : repo_test_suite) (self : file_exists_test.t)
    (w : World) :
  let out := file_exists_test.perform_test suite (self, w) in
  (exists verdict, fst out = Ok verdict) /\
  w_files (snd (snd out)) = w_files w /\
  w_dirs (snd (snd out)) = w_dirs w /\
  w_spawned (snd (snd out)) = w_spawned w /\
  w_stdout (snd (snd out))
    = w_stdout w ++
      concat (List.map (fun e => w_shown w (fst e) (snd e))
                (flat_map (file_lines suite w) (file_exists_test.repo_file_list self))) /\
  length (errors (w_log (snd (snd out))))
    = (length (errors (w_log w))
       + missing_count suite w (file_exists_test.repo_file_list self))%nat /\
  length (infos (w_log (snd (snd out))))
    = (length (infos (w_log w)) + length (file_exists_test.repo_file_list self))%nat.
Proof.
  intros out; subst out. rewrite file_check_run. cbn [fst snd].
  split; [eauto |]. repeat (split; [reflexivity |]).
  rewrite w_log_reported, errors_app, infos_app, !length_app, errors_file_lines.
  split; [reflexivity |]. f_equal.
  induction (file_exists_test.repo_file_list self) as [|f l IH]; [reflexivity |].
  cbn [flat_map length]. rewrite infos_app, length_app, IH.
  unfold file_lines. destruct (found_under suite w f); reflexivity.
Qed.

(** X11. Checking a list made of two parts is checking the first part and
    then the second: the verdict is the conjunction of the two verdicts
    and the world is the one the second check leaves. *)
Theorem file_check_append (suite : repo_test_suite) (b : repo_test.t)
    (l1 l2 : list pystr) (w : World) :
  let out1 := file_exists_test.perform_test suite (file_exists_test.mk b l1, w) in
  let out2 := file_exists_test.perform_test suite
                (file_exists_test.mk b l2, snd (snd out1)) in
  let out := file_exists_test.perform_test suite (file_exists_test.mk b (l1 ++ l2), w) in
  exists v1 v2,
    fst out1 = Ok v1 /\ fst out2 = Ok v2 /\
    fst out = Ok (v1 && v2) /\ snd (snd out) = snd (snd out2).
Proof.
  intros out1 out2 out; subst out1 out2 out. rewrite !file_check_run.
  cbn [fst snd file_exists_test.repo_file_list].
  do 2 eexists. split; [reflexivity |]. split; [reflexivity |]. split.
  - rewrite forallb_app. reflexivity.
  - rewrite flat_map_app. same_world w.
Qed.

Lemma found_absolute suite w name :
  is_relative name = false ->
  found_under suite w name = os.exists_name w (Path.to_str (Path.of_str name)).
Proof.
  unfold is_relative, found_under, Path.div. intros H.
  destruct (Path.is_absolute (Path.of_str name)); [reflexivity | discriminate].
Qed.

(** X12. An absolute name in the list is looked up as it is, not below
    the working path: for a list of absolute names the verdict is the
    same in every run context. *)
Theorem file_check_absolute (suite suite' : repo_test_suite)
    (self : file_exists_test.t) (w : World) :
  Forall (fun f => is_relative f = false) (file_exists_test.repo_file_list self) ->
  fst (file_exists_test.perform_test suite (self, w))
    = Ok (forallb (fun f => os.exists_name w (Path.to_str (Path.of_str f)))
            (file_exists_test.repo_file_list self)) /\
  fst (file_exists_test.perform_test suite (self, w))
    = fst (file_exists_test.perform_test suite' (self, w)).
Proof.
  intros Habs. rewrite !file_check_run. cbn [fst].
  assert (E : forall s, forallb (found_under s w) (file_exists_test.repo_file_list self)
    = forallb (fun f => os.exists_name w (Path.to_str (Path.of_str f)))
        (file_exists_test.repo_file_list self)).
  { intros s. induction Habs as [|f l Hf Hl IH]; [reflexivity |].
    cbn [forallb]. now rewrite IH, found_absolute. }
  now rewrite !E.
Qed.

Lemma file_check_absolute_witness :
  fst (file_exists_test.perform_test lab
         (file_exists_test.__init__ [lit "/repo/lab/README.md"] true, readme_world))
    = Ok (forallb (fun f => os.exists_name readme_world (Path.to_str (Path.of_str f)))
            [lit "/repo/lab/README.md"]) /\
  fst (file_exists_test.perform_test lab
         (file_exists_test.__init__ [lit "/repo/lab/README.md"] true, readme_world))
    = fst (file_exists_test.perform_test elsewhere
         (file_exists_test.__init__ [lit "/repo/lab/README.md"] true, readme_world)).
Proof.
  apply (file_check_absolute lab elsewhere
           (file_exists_test.__init__ [lit "/repo/lab/README.md"] true) readme_world).
  repeat constructor.
Defined.
(** ** The repository checks, continued *)

Lemma length_split_from cur s :
  length (split_from LF cur s) = S (line_feeds s).
Proof.
  unfold line_feeds. revert cur; induction s as [|c s IH]; intros cur; cbn [split_from count_occ].
  - reflexivity.
  - destruct (N.eqb_spec c LF) as [E|E]; destruct (N.eq_dec c LF) as [E'|E'];
      try contradiction; cbn [length]; now rewrite IH.
Qed.

(** X13. The tracked-file count is one more than the number of line feeds
    of the listing, so the verdict is [True] exactly when that number
    stays below the maximum. *)
Theorem max_repo_files_counts_line_feeds (suite : repo_test_suite)
    (self : check_for_max_repo_files.t) (w : World) (listing : pystr) :
  git_ls_files (repo suite) [relative_repo_path suite] = Ok listing ->
  exists verdict,
    fst (check_for_max_repo_files.perform_test suite (self, w)) = Ok verdict /\
    (verdict = true <->
     Z.of_nat (line_feeds listing) < check_for_max_repo_files.max_dir_files self).
Proof.
  intros Hq. rewrite (max_repo_files_run _ _ _ _ Hq). cbn [fst].
  eexists. split; [reflexivity |].
  unfold split. rewrite length_split_from, Z.leb_le. lia.
Qed.

Lemma max_repo_files_counts_line_feeds_witness :
  exists verdict,
    fst (check_for_max_repo_files.perform_test (lab_suite two_files_repo None)
           (check_for_max_repo_files.__init__ 2, bare_world no_programs)) = Ok verdict /\
    (verdict = true <->
     Z.of_nat (line_feeds (lit "a.v" ++ nl ++ lit "b.v" ++ nl))
     < check_for_max_repo_files.max_dir_files (check_for_max_repo_files.__init__ 2)).
Proof.
  apply (max_repo_files_counts_line_feeds (lab_suite two_files_repo None)
           (check_for_max_repo_files.__init__ 2) (bare_world no_programs)
           (lit "a.v" ++ nl ++ lit "b.v" ++ nl)).
  reflexivity.
Defined.

(** X14. With a maximum below 1 the tracked-file check fails on every
    listing, the empty one included, and reports too many files. *)
Theorem max_repo_files_needs_positive_maximum (suite : repo_test_suite)
    (self : check_for_max_repo_files.t) (w : World) (listing : pystr) :
  git_ls_files (repo suite) [relative_repo_path suite] = Ok listing ->
  check_for_max_repo_files.max_dir_files self < 1 ->
  fst (check_for_max_repo_files.perform_test suite (self, w)) = Ok false /\
  In [lit "  Too many tracked files"]
     (errors (w_log (snd (snd (check_for_max_repo_files.perform_test suite (self, w)))))).
Proof.
  intros Hq Hmax. rewrite (max_repo_files_run _ _ _ _ Hq). cbn [fst snd].
  unfold split. rewrite length_split_from.
  destruct (Z.leb_spec (Z.of_nat (S (line_feeds listing)))
              (check_for_max_repo_files.max_dir_files self)) as [H|H]; [lia |].
  split; [reflexivity |].
  rewrite w_log_reported, errors_app. apply in_or_app; right. now left.
Qed.

Lemma max_repo_files_needs_positive_maximum_witness :
  fst (check_for_max_repo_files.perform_test lab
         (check_for_max_repo_files.__init__ 0, bare_world no_programs)) = Ok false /\
  In [lit "  Too many tracked files"]
     (errors (w_log (snd (snd (check_for_max_repo_files.perform_test lab
         (check_for_max_repo_files.__init__ 0, bare_world no_programs)))))).
Proof.
  apply (max_repo_files_needs_positive_maximum lab
           (check_for_max_repo_files.__init__ 0) (bare_world no_programs) []).
  - reflexivity.
  - reflexivity.
Defined.

Lemma errors_cons_error (x : list pystr) (l : list logline) :
  errors ((Error, x) :: l) = x :: errors l.
Proof. reflexivity. Qed.

Lemma modified_nil_iff (changes : list Diff) :
  check_for_uncommitted_files.modified changes = [] <->
  Forall (fun item => change_type item <> lit "M") changes.
Proof.
  unfold check_for_uncommitted_files.modified.
  induction changes as [|item changes IH]; cbn [List.filter List.map].
  - split; [constructor | reflexivity].
  - destruct (bool_decide_reflect (change_type item = lit "M")) as [E|E];
      cbn [List.map]; split.
    + discriminate.
    + intros H. inversion H; subst. contradiction.
    + intros H. constructor; [assumption | now apply IH].
    + intros H. inversion H; subst. now apply IH.
Qed.

(** X15. The uncommitted-files check looks at the entries of change type
    [M] only: it returns [True] exactly when no entry has that type, so
    added, deleted or renamed entries never fail it, and the paths it
    reports are those of the [M] entries, in order. *)
Theorem uncommitted_only_modified (suite : repo_test_suite)
    (self : check_for_uncommitted_files.t) (w : World) (changes : list Diff) :
  index_diff_None (repo suite) = Ok changes ->
  let out := check_for_uncommitted_files.perform_test suite (self, w) in
  (exists verdict, fst out = Ok verdict /\
     (verdict = true <-> Forall (fun item => change_type item <> lit "M") changes)) /\
  errors (w_log (snd (snd out)))
    = errors (w_log w) ++
      match List.filter (fun item => bool_decide (change_type item = lit "M")) changes with
      | [] => []
      | items => [lit "Uncommitted files found in repository:"]
                 :: List.map (fun item => [lit "  " ++ a_path item]) items
      end.
Proof.
  intros Hq out; subst out. rewrite (uncommitted_run _ _ _ _ Hq). cbn [fst snd].
  split.
  - eexists. split; [reflexivity |].
    rewrite bool_decide_eq_true. apply modified_nil_iff.
  - rewrite w_log_reported, errors_app. f_equal.
    unfold check_for_uncommitted_files.modified.
    destruct (List.filter _ changes) as [|item items]; [reflexivity |].
    cbn [List.map listing_report].
    rewrite !errors_cons_error, (errors_all_error (fun f => [lit "  " ++ f])).
    now rewrite List.map_map.
Qed.

Lemma uncommitted_only_modified_witness :
  (exists verdict,
     fst (check_for_uncommitted_files.perform_test (lab_suite two_files_repo None)
            (check_for_uncommitted_files.__init__, bare_world no_programs)) = Ok verdict /\
     (verdict = true <->
      Forall (fun item => change_type item <> lit "M")
        [mkDiff (lit "new.v") (lit "A"); mkDiff (lit "old.v") (lit "D")])) /\
  errors (w_log (snd (snd (check_for_uncommitted_files.perform_test
            (lab_suite two_files_repo None)
            (check_for_uncommitted_files.__init__, bare_world no_programs)))))
    = errors (w_log (bare_world no_programs)) ++
      match List.filter (fun item => bool_decide (change_type item = lit "M"))
              [mkDiff (lit "new.v") (lit "A"); mkDiff (lit "old.v") (lit "D")] with
      | [] => []
      | items => [lit "Uncommitted files found in repository:"]
                 :: List.map (fun item => [lit "  " ++ a_path item]) items
      end.
Proof.
  apply (uncommitted_only_modified (lab_suite two_files_repo None)
           check_for_uncommitted_files.__init__ (bare_world no_programs)
           [mkDiff (lit "new.v") (lit "A"); mkDiff (lit "old.v") (lit "D")]).
  reflexivity.
Defined.
(** X16. The file count never reads [max_files] and the untracked-files
    check never reads [ignore_ok]: two instances of either module, however
    they were built, give the same verdict and leave the same world. *)
Theorem unread_parameters (suite : repo_test_suite) (w : World) :
  (forall self1 self2 : check_number_of_files.t,
     fst (check_number_of_files.perform_test suite (self1, w))
       = fst (check_number_of_files.perform_test suite (self2, w)) /\
     snd (snd (check_number_of_files.perform_test suite (self1, w)))
       = snd (snd (check_number_of_files.perform_test suite (self2, w)))) /\
  (forall self1 self2 : check_for_untracked_files.t,
     fst (check_for_untracked_files.perform_test suite (self1, w))
       = fst (check_for_untracked_files.perform_test suite (self2, w)) /\
     snd (snd (check_for_untracked_files.perform_test suite (self1, w)))
       = snd (snd (check_for_untracked_files.perform_test suite (self2, w)))).
Proof.
  split; intros self1 self2.
  - destruct (git_status (repo suite) [lit "--suno"]) as [status|e] eqn:Hq.
    + rewrite !(number_of_files_run _ _ _ _ Hq). split; reflexivity.
    + unfold check_number_of_files.perform_test. run. rewrite Hq. split; reflexivity.
  - destruct (git_ls_files (repo suite) [lit "--others"; lit "--exclude-standard"])
      as [listing|e] eqn:Hq.
    + rewrite !(untracked_run _ _ _ _ Hq). split; reflexivity.
    + unfold check_for_untracked_files.perform_test. run. rewrite Hq. split; reflexivity.
Qed.

(** X17. A repository query that raises ends the check in the same
    exception, never in a verdict.  Nothing has been reported by then,
    except by the ignored-files check, which has already reported the
    path it looks at. *)
Theorem query_failure_propagates (suite : repo_test_suite) (w : World) (e : exn) :
  (forall self,
     git_ls_files (repo suite) [lit "--others"; lit "--exclude-standard"] = Raise e ->
     check_for_untracked_files.perform_test suite (self, w) = (Raise e, (self, w))) /\
  (forall self,
     git_ls_files (repo suite) [relative_repo_path suite] = Raise e ->
     check_for_max_repo_files.perform_test suite (self, w) = (Raise e, (self, w))) /\
  (forall self,
     index_diff_None (repo suite) = Raise e ->
     check_for_uncommitted_files.perform_test suite (self, w) = (Raise e, (self, w))) /\
  (forall self,
     git_status (repo suite) [lit "--suno"] = Raise e ->
     check_number_of_files.perform_test suite (self, w) = (Raise e, (self, w))) /\
  (forall self,
     git_ls_files (repo suite)
       [Path.to_str (match check_for_ignored_files.check_path self with
                     | None => working_path suite
                     | Some p => p
                     end);
        lit "--others"; lit "--ignored"; lit "--exclude-standard"] = Raise e ->
     fst (check_for_ignored_files.perform_test suite (self, w)) = Raise e /\
     w_log (snd (snd (check_for_ignored_files.perform_test suite (self, w))))
       = w_log w ++
         [(Info, [lit "Checking for ignored files at " ++
                  Path.to_str (match check_for_ignored_files.check_path self with
                               | None => working_path suite
                               | Some p => p
                               end)])]).
Proof.
  split; [| split; [| split; [| split]]]; intros self Hq.
  - unfold check_for_untracked_files.perform_test. run. now rewrite Hq.
  - unfold check_for_max_repo_files.perform_test. run. now rewrite Hq.
  - unfold check_for_uncommitted_files.perform_test. run. now rewrite Hq.
  - unfold check_number_of_files.perform_test. run. now rewrite Hq.
  - unfold check_for_ignored_files.perform_test,
      check_for_ignored_files.default_check_path.
    destruct self as [b [p|]]; cbn [check_for_ignored_files.check_path] in *;
      run; cbn [check_for_ignored_files.check_path]; rewrite Hq; split; reflexivity.
Qed.

Lemma query_failure_propagates_witness :
  check_for_untracked_files.perform_test (lab_suite failing_repo None)
    (check_for_untracked_files.__init__ true, bare_world no_programs)
    = (Raise (External "GitCommandError"),
       (check_for_untracked_files.__init__ true, bare_world no_programs)) /\
  check_for_max_repo_files.perform_test (lab_suite failing_repo None)
    (check_for_max_repo_files.__init__ 20, bare_world no_programs)
    = (Raise (External "GitCommandError"),
       (check_for_max_repo_files.__init__ 20, bare_world no_programs)) /\
  check_for_uncommitted_files.perform_test (lab_suite failing_repo None)
    (check_for_uncommitted_files.__init__, bare_world no_programs)
    = (Raise (External "GitCommandError"),
       (check_for_uncommitted_files.__init__, bare_world no_programs)) /\
  check_number_of_files.perform_test (lab_suite failing_repo None)
    (check_number_of_files.__init__ 5, bare_world no_programs)
    = (Raise (External "GitCommandError"),
       (check_number_of_files.__init__ 5, bare_world no_programs)) /\
  fst (check_for_ignored_files.perform_test (lab_suite failing_repo None)
         (check_for_ignored_files.__init__ None, bare_world no_programs))
    = Raise (External "GitCommandError") /\
  w_log (snd (snd (check_for_ignored_files.perform_test (lab_suite failing_repo None)
         (check_for_ignored_files.__init__ None, bare_world no_programs))))
    = w_log (bare_world no_programs) ++
      [(Info, [lit "Checking for ignored files at " ++
               Path.to_str (working_path (lab_suite failing_repo None))])].
Proof.
  destruct (query_failure_propagates (lab_suite failing_repo None)
              (bare_world no_programs) (External "GitCommandError"))
    as (U & M & C & N & I).
  split; [apply U; reflexivity |].
  split; [apply M; reflexivity |].
  split; [apply C; reflexivity |].
  split; [apply N; reflexivity |].
  apply (I (check_for_ignored_files.__init__ None)). reflexivity.
Defined.

(** ** The commit listing, continued *)

(** X18. When [check_path] does not lie under the root of the repository
    the commit listing ends in [ValueError]: nothing is reported or
    printed, the history is not asked for, and [check_path] has already
    taken its default. *)
Theorem list_git_commits_outside_root (suite : repo_test_suite)
    (self : list_git_commits.t) (w : World) :
  Path.relative_to
    (match list_git_commits.check_path self with
     | None => working_path suite
     | Some p => p
     end) (repo_root_path suite) = None ->
  list_git_commits.perform_test suite (self, w)
  = (Raise ValueError,
     (list_git_commits.mk (list_git_commits.base self)
        (Some (match list_git_commits.check_path self with
               | None => working_path suite
               | Some p => p
               end)), w)).
Proof.
  intros Hrel.
  unfold list_git_commits.perform_test, list_git_commits.default_check_path.
  destruct self as [b [p|]]; cbn [list_git_commits.check_path list_git_commits.base] in *;
    run; cbn [list_git_commits.check_path list_git_commits.base];
    now rewrite Hrel.
Qed.

Lemma list_git_commits_outside_root_witness :
  list_git_commits.perform_test elsewhere
    (list_git_commits.__init__ None, bare_world no_programs)
  = (Raise ValueError,
     (list_git_commits.mk (list_git_commits.base (list_git_commits.__init__ None))
        (Some (working_path elsewhere)), bare_world no_programs)).
Proof.
  apply (list_git_commits_outside_root elsewhere (list_git_commits.__init__ None)
           (bare_world no_programs)).
  vm_compute. reflexivity.
Defined.

(** X19. The commit lines are printed on the console only: the commit
    listing adds one informational line to the log of the run context,
    the path it looks at, and no error line, whatever the history. *)
Theorem list_git_commits_log (suite : repo_test_suite) (self : list_git_commits.t)
    (w : World) (relative_path : Path.t) (commits : list Commit) :
  Path.relative_to
    (match list_git_commits.check_path self with
     | None => working_path suite
     | Some p => p
     end) (repo_root_path suite) = Some relative_path ->
  iter_commits (repo suite) relative_path = Ok commits ->
  w_log (snd (snd (list_git_commits.perform_test suite (self, w))))
  = w_log w ++ [(Info, [lit "Checking for commits at " ++ Path.to_str relative_path])].
Proof.
  intros Hrel Hc.
  unfold list_git_commits.perform_test, list_git_commits.default_check_path.
  destruct self as [b [p|]]; cbn [list_git_commits.check_path] in Hrel;
    run; cbn [list_git_commits.check_path list_git_commits.base];
    rewrite Hrel, Hc, print_loop_run; reflexivity.
Qed.

Lemma list_git_commits_log_witness :
  w_log (snd (snd (list_git_commits.perform_test (lab_suite history_repo None)
           (list_git_commits.__init__ None, bare_world no_programs))))
  = w_log (bare_world no_programs)
    ++ [(Info, [lit "Checking for commits at " ++ Path.to_str (Path.mk [] [lit "lab"])])].
Proof.
  apply (list_git_commits_log (lab_suite history_repo None)
           (list_git_commits.__init__ None) (bare_world no_programs)
           (Path.mk [] [lit "lab"]) two_commits).
  - vm_compute. reflexivity.
  - reflexivity.
Defined.
(** ** The default of [check_path] *)

Lemma ignored_self_after suite self w :
  fst (snd (check_for_ignored_files.perform_test suite (self, w)))
  = check_for_ignored_files.mk (check_for_ignored_files.base self)
      (Some (match check_for_ignored_files.check_path self with
             | None => working_path suite
             | Some p => p
             end)).
Proof.
  unfold check_for_ignored_files.perform_test,
    check_for_ignored_files.default_check_path.
  destruct self as [b [p|]]; run;
    cbn [check_for_ignored_files.check_path check_for_ignored_files.base];
    (destruct (git_ls_files _ _) as [[|c rest]|e]; try reflexivity;
     now rewrite report_entries_run).
Qed.

Lemma commits_self_after suite self w :
  fst (snd (list_git_commits.perform_test suite (self, w)))
  = list_git_commits.mk (list_git_commits.base self)
      (Some (match list_git_commits.check_path self with
             | None => working_path suite
             | Some p => p
             end)).
Proof.
  unfold list_git_commits.perform_test, list_git_commits.default_check_path.
  destruct self as [b [p|]]; run;
    cbn [list_git_commits.check_path list_git_commits.base];
    (destruct (Path.relative_to _ _); [| reflexivity]);
    (destruct (iter_commits _ _); [| reflexivity]);
    now rewrite print_loop_run.
Qed.

Lemma ignored_reports_path suite self w :
  In (Info, [lit "Checking for ignored files at " ++
             Path.to_str (match check_for_ignored_files.check_path self with
                          | None => working_path suite
                          | Some p => p
                          end)])
     (w_log (snd (snd (check_for_ignored_files.perform_test suite (self, w))))).
Proof.
  unfold check_for_ignored_files.perform_test,
    check_for_ignored_files.default_check_path.
  destruct self as [b [p|]]; run;
    cbn [check_for_ignored_files.check_path check_for_ignored_files.base];
    (destruct (git_ls_files _ _) as [[|c rest]|e];
     rewrite ?report_entries_run, ?reported_app; cbn [fst snd];
     rewrite w_log_reported; apply in_or_app; right; now left).
Qed.

(** X20. The default of [check_path] is taken once.  An instance built
    without a path keeps the working path of the first run context it
    meets: in a later run with another run context it behaves as if it
    had been built with that first path, its fields do not change any
    more, and the ignored-files check reports that first path. *)
Theorem check_path_default_sticks (suite1 suite2 : repo_test_suite)
    (b : repo_test.t) (w1 w2 : World) :
  (let later := fst (snd (check_for_ignored_files.perform_test suite1
                            (check_for_ignored_files.mk b None, w1))) in
   check_for_ignored_files.perform_test suite2 (later, w2)
     = check_for_ignored_files.perform_test suite2
         (check_for_ignored_files.mk b (Some (working_path suite1)), w2) /\
   fst (snd (check_for_ignored_files.perform_test suite2 (later, w2))) = later /\
   In (Info, [lit "Checking for ignored files at " ++
              Path.to_str (working_path suite1)])
      (w_log (snd (snd (check_for_ignored_files.perform_test suite2 (later, w2))))))
  /\
  (let later := fst (snd (list_git_commits.perform_test suite1
                            (list_git_commits.mk b None, w1))) in
   list_git_commits.perform_test suite2 (later, w2)
     = list_git_commits.perform_test suite2
         (list_git_commits.mk b (Some (working_path suite1)), w2) /\
   fst (snd (list_git_commits.perform_test suite2 (later, w2))) = later).
Proof.
  split; intros later; subst later.
  - rewrite ignored_self_after. cbn [check_for_ignored_files.check_path
      check_for_ignored_files.base].
    split; [reflexivity |]. split; [now rewrite ignored_self_after |].
    apply (ignored_reports_path suite2
             (check_for_ignored_files.mk b (Some (working_path suite1)))).
  - rewrite commits_self_after. cbn [list_git_commits.check_path list_git_commits.base].
    split; [reflexivity |]. now rewrite commits_self_after.
Qed.

(** ** Reported entries *)

Lemma splitlines_from_clean (n : nat) : forall (s cur : pystr),
  (length s <= n)%nat ->
  Forall (fun c => is_linebreak c = false) cur ->
  Forall (Forall (fun c => is_linebreak c = false)) (splitlines_from cur s).
Proof.
  induction n as [|n IH]; intros s cur Hlen Hcur.
  - destruct s; [| cbn in Hlen; lia]. cbn [splitlines_from].
    destruct cur; constructor; [| constructor]. apply List.Forall_rev. assumption.
  - destruct s as [|c rest]; cbn [splitlines_from].
    + destruct cur; constructor; [| constructor]. apply List.Forall_rev. assumption.
    + cbn [length] in Hlen. destruct (is_linebreak c) eqn:Hc.
      * constructor; [apply List.Forall_rev; assumption |].
        destruct rest as [|d rest'].
        -- constructor.
        -- cbn [length] in Hlen.
           destruct (N.eqb c 13 && N.eqb d 10)%bool; apply IH;
             try constructor; cbn [length]; lia.
      * apply IH; [lia |]. constructor; assumption.
Qed.

(** X21. Every entry the untracked-files check reports is free of
    line-break characters, so each reported path is one line of the
    log. *)
Theorem untracked_entries_single_line (suite : repo_test_suite)
    (self : check_for_untracked_files.t) (w : World) (listing : pystr) :
  git_ls_files (repo suite) [lit "--others"; lit "--exclude-standard"] = Ok listing ->
  exists added,
    errors (w_log (snd (snd (check_for_untracked_files.perform_test suite (self, w)))))
      = errors (w_log w) ++ added /\
    Forall (Forall (Forall (fun c => is_linebreak c = false))) added.
Proof.
  intros Hq. rewrite (untracked_run _ _ _ _ Hq). cbn [snd].
  rewrite w_log_reported, errors_app. eexists. split; [reflexivity |].
  pose proof (splitlines_from_clean (length listing) listing [] (le_n _)
                (List.Forall_nil _)) as Hclean.
  fold (splitlines listing) in Hclean.
  destruct (splitlines listing) as [|f files]; [constructor |].
  unfold listing_report. rewrite errors_cons_error.
  rewrite (errors_all_error (fun f0 => [lit "  " ++ f0])).
  constructor.
  - constructor; [| constructor]. vm_compute. repeat constructor.
  - apply List.Forall_map. eapply List.Forall_impl; [| exact Hclean].
    intros a Ha. constructor; [| constructor].
    apply List.Forall_app. split; [vm_compute; repeat constructor | exact Ha].
Qed.

Lemma untracked_entries_single_line_witness :
  exists added,
    errors (w_log (snd (snd (check_for_untracked_files.perform_test
              (lab_suite scratch_repo None)
              (check_for_untracked_files.__init__ true, bare_world no_programs)))))
      = errors (w_log (bare_world no_programs)) ++ added /\
    Forall (Forall (Forall (fun c => is_linebreak c = false))) added.
Proof.
  apply (untracked_entries_single_line (lab_suite scratch_repo None)
           (check_for_untracked_files.__init__ true) (bare_world no_programs)
           (lit "scratch.log")).
  reflexivity.
Defined.
(** X22. The file check can be repeated: a second run on the world the
    first one leaves gives the same verdict. *)
Theorem file_check_repeatable (suite : repo_test_suite) (self : file_exists_test.t)
    (w : World) :
  let out1 := file_exists_test.perform_test suite (self, w) in
  let out2 := file_exists_test.perform_test suite (fst (snd out1), snd (snd out1)) in
  fst out2 = fst out1 /\ fst (snd out2) = self.
Proof.
  intros out1 out2; subst out1 out2. rewrite !file_check_run. cbn [fst snd].
  split; reflexivity.
Qed.

(** ** The line of a commit *)

Lemma lstrip_head (s : pystr) c r : lstrip s = c :: r -> is_space c = false.
Proof.
  induction s as [|a s IH]; cbn [lstrip]; [discriminate |].
  destruct (is_space a) eqn:Ha; [exact IH |].
  intros H. injection H as <- _. exact Ha.
Qed.

Lemma lstrip_suffix (s : pystr) : exists pre, s = pre ++ lstrip s.
Proof.
  induction s as [|a s [pre IH]]; cbn [lstrip]; [now exists [] |].
  destruct (is_space a).
  - exists (a :: pre). cbn [app]. now rewrite <- IH.
  - now exists [].
Qed.

(** X23. In the line printed for a commit the hash has at most seven
    characters and the message neither starts nor ends with white space:
    the line feed that ends a commit message is not printed. *)
Theorem commit_line_shape (commit : Commit) :
  exists hash msg,
    list_git_commits.commit_line commit
      = hash ++ lit " - "
        ++ committed_datetime_strftime commit (lit "%Y-%m-%d %H:%M:%S")
        ++ lit " - " ++ msg /\
    hash = firstn 7 (hexsha commit) /\ (length hash <= 7)%nat /\
    msg = strip (message commit) /\
    (forall c r, msg = c :: r -> is_space c = false) /\
    (forall r c, msg = r ++ [c] -> is_space c = false).
Proof.
  exists (firstn 7 (hexsha commit)), (strip (message commit)).
  split; [reflexivity |]. split; [reflexivity |].
  split; [rewrite length_firstn; lia |]. split; [reflexivity |].
  unfold strip. set (m := lstrip (message commit)).
  destruct (lstrip_suffix (rev m)) as [pre Hpre]. split.
  - intros c r Hr.
    assert (E : lstrip (rev m) = rev r ++ [c]).
    { rewrite <- (rev_involutive (lstrip (rev m))), Hr. reflexivity. }
    rewrite E in Hpre.
    assert (Em : m = c :: rev (pre ++ rev r)).
    { rewrite <- (rev_involutive m), Hpre, app_assoc, rev_app_distr. reflexivity. }
    exact (lstrip_head _ _ _ Em).
  - intros r c Hr.
    assert (E : lstrip (rev m) = c :: rev r).
    { rewrite <- (rev_involutive (lstrip (rev m))), Hr, rev_app_distr. reflexivity. }
    exact (lstrip_head _ _ _ E).
Qed.
